(** * fetch_data.py: the incremental price-history updater

    A shallow embedding of [fetch_and_save_data] (src/fetch_data.py) and the
    properties of its loader, fetch planner, merge loop and write step.

    The program is dynamically typed: whatever [json.loads] returns flows
    through the indexing, date and list operations of the script, and a value
    of the wrong shape surfaces as a Python exception.  The embedding keeps
    that: values are [json] terms, every operation that can raise returns a
    [result], and the run is a function from the outside world (environment
    variable, file, clock, HTTP response) to an [outcome]. *)

From Stdlib Require Import ZArith String Ascii List Lia PrimFloat.
From stdpp Require Import gmap strings list sorting.
Import ListNotations.

#[local] Set Warnings "-register-all,-inexact-float,-clear-no-such-hyp".
Local Open Scope string_scope.
Local Open Scope list_scope.
Local Open Scope Z_scope.

(** ** Python values as decoded by [json.loads] *)

Inductive json : Type :=
| JNull
| JBool (b : bool)
| JInt (n : Z)
| JFloat (x : float)
| JStr (s : string)
| JList (items : list json)
| JDict (fields : list (string * json)).

(** ** Exceptions and the error monad *)

Inductive exn : Type :=
| TypeError
| IndexError
| KeyError
| AttributeError
| RangeError      (* ValueError / OverflowError of datetime.fromtimestamp *)
| FloatTimestamp. (* a float used as a timestamp: outside this model *)

Inductive result (A : Type) : Type :=
| OK (a : A)
| Raise (e : exn).
Arguments OK {A} a.
Arguments Raise {A} e.

#[global] Instance result_ret : MRet result := fun _ a => OK a.

#[global] Instance result_bind : MBind result := fun _ _ f m =>
  match m with
  | OK a => f a
  | Raise e => Raise e
  end.

(** ** [datetime.fromtimestamp(ts, tz=timezone.utc).strftime('%Y-%m-%d')] *)

Module Calendar.

(** Seconds accepted by [datetime.fromtimestamp]: years 1 to 9999. *)
Definition MIN_TS : Z := -62135596800.
Definition MAX_TS : Z := 253402300799.

(** Proleptic Gregorian date of a day count since 1970-01-01. *)
Definition civil_from_days (days : Z) : Z * Z * Z :=
  let z := days + 719468 in
  let era := z / 146097 in
  let doe := z - era * 146097 in
  let yoe := (doe - doe / 1460 + doe / 36524 - doe / 146096) / 365 in
  let doy := doe - (365 * yoe + yoe / 4 - yoe / 100) in
  let mp := (5 * doy + 2) / 153 in
  let d := doy - (153 * mp + 2) / 5 + 1 in
  let m := if mp <? 10 then mp + 3 else mp - 9 in
  let y := yoe + era * 400 + (if m <=? 2 then 1 else 0) in
  (y, m, d).

Definition digit (n : Z) : ascii := ascii_of_nat (48 + Z.to_nat (n mod 10)).

Fixpoint decimal (fuel : nat) (n : Z) (acc : string) : string :=
  match fuel with
  | O => acc
  | S fuel' =>
      let acc' := String (digit n) acc in
      if n <? 10 then acc' else decimal fuel' (n / 10) acc'
  end.

Definition two_digits (n : Z) : string :=
  String (digit (n / 10)) (String (digit n) EmptyString).

(** [%Y-%m-%d]; glibc prints [%Y] without padding. *)
Definition strftime_Ymd (ymd : Z * Z * Z) : string :=
  let '(y, m, d) := ymd in
  (decimal 4 y "" ++ "-" ++ two_digits m ++ "-" ++ two_digits d)%string.

Definition utc_date (ts : Z) : result string :=
  if (ts <? MIN_TS) || (MAX_TS <? ts) then Raise RangeError
  else OK (strftime_Ymd (civil_from_days (ts / 86400))).

End Calendar.

(** ** The Python operations the script applies to decoded values *)

Module Py.

(** [bool(v)], as in [if existing_data:]. *)
Definition truthy (v : json) : bool :=
  match v with
  | JNull => false
  | JBool b => b
  | JInt n => negb (n =? 0)
  | JFloat x => negb (PrimFloat.eqb x 0%float)
  | JStr s => negb (String.eqb s "")
  | JList items => negb (Nat.eqb (length items) 0)
  | JDict fields => negb (Nat.eqb (length fields) 0)
  end.

Definition index {A} (l : list A) (i : Z) : result A :=
  let n := Z.of_nat (length l) in
  let j := if i <? 0 then i + n else i in
  if (j <? 0) || (n <=? j) then Raise IndexError
  else match l !! Z.to_nat j with
       | Some a => OK a
       | None => Raise IndexError
       end.

Definition chars (s : string) : list json :=
  (fun c => JStr (String c EmptyString)) <$> list_ascii_of_string s.

(** [v[i]] for an integer [i]; the keys of a decoded object are strings,
    so an integer key is never found. *)
Definition getitem (v : json) (i : Z) : result json :=
  match v with
  | JList items => index items i
  | JStr s => index (chars s) i
  | JDict _ => Raise KeyError
  | _ => Raise TypeError
  end.

(** [len(v)]. *)
Definition len (v : json) : result Z :=
  match v with
  | JList items => OK (Z.of_nat (length items))
  | JStr s => OK (Z.of_nat (String.length s))
  | JDict fields => OK (Z.of_nat (length fields))
  | _ => Raise TypeError
  end.

(** [for entry in v]. *)
Definition iter (v : json) : result (list json) :=
  match v with
  | JList items => OK items
  | JStr s => OK (chars s)
  | JDict fields => OK ((fun kv => JStr kv.1) <$> fields)
  | _ => Raise TypeError
  end.

(** [v.append(x)]: only lists have the method. *)
Definition append (v x : json) : result json :=
  match v with
  | JList items => OK (JList (items ++ [x]))
  | _ => Raise AttributeError
  end.

(** The integer a value stands for where the script does arithmetic on a
    timestamp; [bool] is a subclass of [int]. *)
Definition int_value (v : json) : result Z :=
  match v with
  | JInt n => OK n
  | JBool b => OK (if b then 1 else 0)
  | JFloat _ => Raise FloatTimestamp
  | _ => Raise TypeError
  end.

(** [v // 1000]. *)
Definition floordiv_1000 (v : json) : result json :=
  n ← int_value v; mret (JInt (n / 1000)).

(** [datetime.fromtimestamp(v, tz=timezone.utc).strftime('%Y-%m-%d')]. *)
Definition date_str (v : json) : result string :=
  n ← int_value v; Calendar.utc_date n.

(** [d.get(key)] on a decoded object. *)
Fixpoint dict_get (fields : list (string * json)) (key : string) : json :=
  match fields with
  | [] => JNull
  | (k, v) :: rest => if String.eqb k key then v else dict_get rest key
  end.

(** [body.get('prices')]. *)
Definition get_prices (body : json) : result json :=
  match body with
  | JDict fields => OK (dict_get fields "prices")
  | _ => Raise AttributeError
  end.

(** [l.sort(key=lambda x: x[0])]: the keys are computed first, then the
    list is sorted stably on them. *)
Definition sort_key (x : json) : result Z :=
  k ← getitem x 0; int_value k.

Definition keyed (x : json) : result (Z * json) :=
  k ← sort_key x; mret (k, x).

Definition keys (l : list json) : result (list (Z * json)) := mapM keyed l.

Fixpoint insert (kx : Z * json) (l : list (Z * json)) : list (Z * json) :=
  match l with
  | [] => [kx]
  | ky :: rest => if kx.1 <=? ky.1 then kx :: l else ky :: insert kx rest
  end.

Fixpoint stable_sort (l : list (Z * json)) : list (Z * json) :=
  match l with
  | [] => []
  | kx :: rest => insert kx (stable_sort rest)
  end.

Definition sort_by_timestamp (l : list json) : result (list json) :=
  ks ← keys l; mret (snd <$> stable_sort ks).

End Py.

(** ** The outside world of one run *)

(** What lines 29-37 find at [price_data.json]. *)
Inductive store : Type :=
| Missing                 (* os.path.exists is false *)
| Unreadable              (* open or read raises *)
| Blank                   (* content.strip() is empty *)
| NotJSON                 (* json.loads raises JSONDecodeError *)
| Parsed (v : json).      (* json.loads returns v *)

(** What lines 75-78 get back from CoinGecko. *)
Inductive response : Type :=
| HTTPError               (* raise_for_status raises *)
| RequestException        (* timeout, connection failure *)
| InvalidJSON             (* response.json() raises *)
| Body (v : json).

Record world : Type := {
  COINGECKO : option string;   (* os.getenv('COINGECKO') *)
  price_data : store;
  clock_plan : Z;              (* datetime.now at line 61, microseconds *)
  clock_merge : Z;             (* datetime.now at line 96, microseconds *)
  api : Z -> response          (* the reply to a request for [days] days *)
}.

Inductive abort : Type := CorruptStore | IOFailure.

Inductive outcome : Type :=
| MissingCredential                       (* line 17 *)
| LoaderAbort (why : abort)               (* lines 48 and 51 *)
| Uncaught (e : exn) (fetched : bool)     (* the exception leaves the function *)
| FetchFailed                             (* handlers at lines 135-140 *)
| ProcessingError                         (* handler at line 141 *)
| UnexpectedFormat                        (* line 82 *)
| IntegrityAbort                          (* line 124 *)
| UpToDate                                (* line 133 *)
| Written (data : list json) (added : Z)  (* lines 129-131 *)
| OutsideModel.                           (* float timestamp arithmetic *)

(** ** Step 1: the loader (lines 24-53) *)

Inductive loaded : Type :=
| Loaded (existing_data : json) (last_timestamp_sec : Z)
| LoadAbort (why : abort)
| LoadOutsideModel.

Definition last_timestamp (existing_data : json) : result Z :=
  last ← Py.getitem existing_data (-1);
  ts ← Py.getitem last 0;
  _ ← Py.date_str ts;
  Py.int_value ts.

Definition load (f : store) : loaded :=
  match f with
  | Missing => Loaded (JList []) 0
  | Unreadable => LoadAbort IOFailure
  | Blank => Loaded (JList []) 0
  | NotJSON => LoadAbort CorruptStore
  | Parsed existing_data =>
      if Py.truthy existing_data then
        match last_timestamp existing_data with
        | OK last_timestamp_sec => Loaded existing_data last_timestamp_sec
        | Raise FloatTimestamp => LoadOutsideModel
        | Raise _ => LoadAbort IOFailure
        end
      else Loaded existing_data 0
  end.

(** ** Step 2: the fetch planner (lines 59-68) *)

Definition MICROSECONDS_PER_SECOND : Z := 1000000.
Definition MICROSECONDS_PER_DAY : Z := 86400000000.

(** [(now - then).days]: a timedelta is normalised with a floor. *)
Definition timedelta_days (now_us then_us : Z) : Z :=
  (now_us - then_us) / MICROSECONDS_PER_DAY.

Definition days_to_fetch (last_timestamp_sec now_us : Z) : Z :=
  if 0 <? last_timestamp_sec then
    let days :=
      timedelta_days now_us (last_timestamp_sec * MICROSECONDS_PER_SECOND) + 2 in
    if 365 <? days then 365 else days
  else 365.

(** ** Step 3: the merge (lines 85-117) *)

(** Lines 88-93. *)
Fixpoint collect_dates (entries : list json) (existing_dates : gset string)
  : result (gset string) :=
  match entries with
  | [] => OK existing_dates
  | entry :: rest =>
      ts ← Py.getitem entry 0;
      date_str ← Py.date_str ts;
      collect_dates rest ({[date_str]} ∪ existing_dates)
  end.

Definition existing_dates_of (existing_data : json) : result (gset string) :=
  entries ← Py.iter existing_data; collect_dates entries ∅.

Record merge_state : Type := {
  existing_data : json;
  existing_dates : gset string;
  new_entries_count : Z
}.

(** One iteration of the loop at lines 98-117. *)
Definition merge_entry (today_utc_str : string) (st : merge_state) (entry : json)
  : result merge_state :=
  timestamp_ms ← Py.getitem entry 0;
  timestamp_sec ← Py.floordiv_1000 timestamp_ms;
  price ← Py.getitem entry 1;
  entry_date_str ← Py.date_str timestamp_sec;
  if String.eqb entry_date_str today_utc_str then OK st
  else if decide (entry_date_str ∈ existing_dates st) then OK st
  else
    data ← Py.append (existing_data st) (JList [timestamp_sec; price]);
    OK {| existing_data := data;
          existing_dates := {[entry_date_str]} ∪ existing_dates st;
          new_entries_count := new_entries_count st + 1 |}.

Fixpoint merge_loop (today_utc_str : string) (new_data_raw : list json)
  (st : merge_state) : result merge_state :=
  match new_data_raw with
  | [] => OK st
  | entry :: rest =>
      st' ← merge_entry today_utc_str st entry;
      merge_loop today_utc_str rest st'
  end.

Definition merge (data : json) (new_data_raw : list json) (today_utc_str : string)
  : result merge_state :=
  dates ← existing_dates_of data;
  merge_loop today_utc_str new_data_raw
    {| existing_data := data; existing_dates := dates; new_entries_count := 0 |}.

(** ** Step 4: integrity check, sort and write (lines 119-133)

    [Written data n] stands for [json.dump] of the whole of [data] followed
    by the message of line 131; opening the file and writing are taken to
    succeed. *)

Definition commit (initial_count : Z) (st : merge_state) : result outcome :=
  if 0 <? new_entries_count st then
    n ← Py.len (existing_data st);
    if n <? initial_count then OK IntegrityAbort
    else
      match existing_data st with
      | JList items =>
          sorted ← Py.sort_by_timestamp items;
          OK (Written sorted (new_entries_count st))
      | _ => Raise AttributeError
      end
  else OK UpToDate.

(** ** The whole run *)

(** Where an exception raised inside the [try] of line 74 ends up. *)
Definition after_fetch (r : result outcome) : outcome :=
  match r with
  | OK o => o
  | Raise KeyError => ProcessingError
  | Raise FloatTimestamp => OutsideModel
  | Raise e => Uncaught e true
  end.

Definition merge_and_save (w : world) (data : json) (initial_count : Z)
  (body : json) : result outcome :=
  new_data_raw ← Py.get_prices body;
  match new_data_raw with
  | JList raw =>
      dates ← existing_dates_of data;
      today_utc_str ← Calendar.utc_date (clock_merge w / MICROSECONDS_PER_SECOND);
      st ← merge_loop today_utc_str raw
             {| existing_data := data; existing_dates := dates;
                new_entries_count := 0 |};
      commit initial_count st
  | _ => OK UnexpectedFormat
  end.

Definition fetch_and_save_data (w : world) : outcome :=
  match COINGECKO w with
  | None | Some EmptyString => MissingCredential
  | Some _ =>
      match load (price_data w) with
      | LoadAbort why => LoaderAbort why
      | LoadOutsideModel => OutsideModel
      | Loaded data last_timestamp_sec =>
          match Py.len data with
          | Raise e => Uncaught e false
          | OK initial_count =>
              let days := days_to_fetch last_timestamp_sec (clock_plan w) in
              match api w days with
              | HTTPError | RequestException | InvalidJSON => FetchFailed
              | Body body => after_fetch (merge_and_save w data initial_count body)
              end
          end
      end
  end.

(** What an outcome says about the network and the file.  [OutsideModel]
    says nothing: none of the three predicates holds of it. *)
Definition fetch_attempted (o : outcome) : bool :=
  match o with
  | MissingCredential | LoaderAbort _ | Uncaught _ false | OutsideModel => false
  | _ => true
  end.

Definition no_fetch (o : outcome) : bool :=
  match o with
  | MissingCredential | LoaderAbort _ | Uncaught _ false => true
  | _ => false
  end.

Definition no_write (o : outcome) : bool :=
  match o with
  | Written _ _ | OutsideModel => false
  | _ => true
  end.

Definition price_point (ts : Z) (price : float) : json :=
  JList [JInt ts; JFloat price].

Definition scenario (f : store) (raw : list json) : world :=
  {| COINGECKO := Some "key"; price_data := f;
     clock_plan := 1800000000000000; clock_merge := 1800000000000000;
     api := fun _ => Body (JDict [("prices", JList raw)]) |}.

(** ** The loop as a function on lists

    [convert] is what lines 99-104 and 115 compute from one raw entry, before
    the two filters look at it: its date and the entry that would be stored.
    [accepted] is the sub-list of converted entries that pass the filters. *)

Definition entry_date (entry : json) : result string :=
  ts ← Py.getitem entry 0; Py.date_str ts.

Definition convert (entry : json) : result (string * json) :=
  timestamp_ms ← Py.getitem entry 0;
  timestamp_sec ← Py.floordiv_1000 timestamp_ms;
  price ← Py.getitem entry 1;
  entry_date_str ← Py.date_str timestamp_sec;
  mret (entry_date_str, JList [timestamp_sec; price]).

Fixpoint accepted (today : string) (seen : gset string)
  (cs : list (string * json)) : list (string * json) :=
  match cs with
  | [] => []
  | c :: rest =>
      if String.eqb c.1 today then accepted today seen rest
      else if decide (c.1 ∈ seen) then accepted today seen rest
      else c :: accepted today ({[c.1]} ∪ seen) rest
  end.

Definition dates_in (cs : list (string * json)) : gset string :=
  list_to_set (fst <$> cs).

Definition after_merge (D : list json) (dates : gset string) (n : Z)
  (new : list (string * json)) : merge_state :=
  {| existing_data := JList (D ++ (snd <$> new));
     existing_dates := dates ∪ dates_in new;
     new_entries_count := n + Z.of_nat (length new) |}.

(** ** Vocabulary of the statements *)

(** Results can be compared, so entries can be filtered by their date. *)
#[global] Instance exn_eq_dec : EqDecision exn.
Proof. solve_decision. Defined.

#[global] Instance result_eq_dec {A} `{EqDecision A} : EqDecision (result A).
Proof. solve_decision. Defined.

(** The order the sort establishes, and the entries of one key. *)
Definition key_le (kx ky : Z * json) : Prop := kx.1 <= ky.1.

Definition with_key (k : Z) (l : list (Z * json)) : list (Z * json) :=
  filter (fun kx => kx.1 = k) l.

(** A raw entry the loop can process, and a stored entry whose date can
    be computed: the inputs on which the merge raises nothing. *)
Definition raw_point_ok (entry : json) : Prop := exists c, convert entry = OK c.
Definition stored_point_ok (entry : json) : Prop := exists d, entry_date entry = OK d.

(** The working dataset is a list as long as something was appended to it. *)
Definition is_list (v : json) : Prop := exists items, v = JList items.

(** The entries a run starts from. *)
Definition stored_entries (f : store) : list json :=
  match f with
  | Parsed (JList D) => D
  | _ => []
  end.

(** Outcomes that only the write step can produce. *)
Definition decided_by_commit (o : outcome) : Prop :=
  match o with
  | Written _ _ | IntegrityAbort => True
  | _ => False
  end.

(** The stored format the specification expects: a list of
    [[timestamp, price]] pairs, the timestamp an integer, the price a number. *)
Definition is_number (v : json) : bool :=
  match v with
  | JInt _ | JFloat _ => true
  | _ => false
  end.

Definition is_price_point (v : json) : bool :=
  match v with
  | JList [JInt _; price] => is_number price
  | _ => false
  end.

Definition is_dataset (v : json) : bool :=
  match v with
  | JList items => forallb is_price_point items
  | _ => false
  end.

Definition structurally_invalid (f : store) : bool :=
  match f with
  | NotJSON => true
  | Parsed v => negb (is_dataset v)
  | _ => false
  end.

Definition has_credential (w : world) : bool :=
  match COINGECKO w with
  | None | Some EmptyString => false
  | Some _ => true
  end.

(** No entry dated today; at most one entry per date. *)
Definition not_dated (today : string) (e : json) : Prop := entry_date e <> OK today.

Definition one_per_date (items : list json) : Prop :=
  exists ds, mapM entry_date items = OK ds /\ NoDup ds.

(** Raw points that fall on one date that the merge can accept (not today,
    not the date of a stored entry) would be stored as the same entry. *)
Definition same_date_same_point (D : list json) (today : string) (R : list json)
  : Prop :=
  forall r1 r2 c1 c2,
    r1 ∈ R -> r2 ∈ R -> convert r1 = OK c1 -> convert r2 = OK c2 ->
    c1.1 = c2.1 ->
    c1.1 <> today -> (forall e, e ∈ D -> entry_date e <> OK c1.1) ->
    c1.2 = c2.2.

(** Entries as the program writes them and as the API sends them: a list
    that starts with an integer timestamp in the range of [datetime], the
    raw ones carrying a second element. *)
Definition in_range (ts : Z) : Prop := Calendar.MIN_TS <= ts <= Calendar.MAX_TS.

Definition well_formed_stored (entry : json) : Prop :=
  exists ts rest, entry = JList (JInt ts :: rest) /\ in_range ts.

Definition well_formed_raw (entry : json) : Prop :=
  exists ms price rest,
    entry = JList (JInt ms :: price :: rest) /\ in_range (ms / 1000).

(** The datasets the write step can store, run after run, starting from
    the empty dataset of a first run. *)
Inductive produced : list json -> Prop :=
| produced_first_run : produced []
| produced_write D R today st data n :
    produced D ->
    merge (JList D) R today = OK st ->
    commit (Z.of_nat (length D)) st = OK (Written data n) ->
    produced data.

(** A list in ascending order of the sort key [x[0]], and the entries of a
    list that carry a given key. *)
Definition ascending (items : list json) : Prop :=
  exists ks, Py.keys items = OK ks /\ StronglySorted key_le ks.

Definition entries_with_key (k : Z) (items : list json) : list json :=
  filter (fun e => Py.sort_key e = OK k) items.

(** The date string of a day count since 1970-01-01. *)
Definition date_of_day (day : Z) : string :=
  Calendar.strftime_Ymd (Calendar.civil_from_days day).

(** The raw list a run receives: [new_data_raw] as the loop of line 98
    finds it, when the run gets that far. *)
Definition fetched_raw (w : world) : option (list json) :=
  if has_credential w then
    match load (price_data w) with
    | Loaded data last_timestamp_sec =>
        match Py.len data with
        | OK _ =>
            match api w (days_to_fetch last_timestamp_sec (clock_plan w)) with
            | Body (JDict fields) =>
                match Py.dict_get fields "prices" with
                | JList raw => Some raw
                | _ => None
                end
            | _ => None
            end
        | Raise _ => None
        end
    | _ => None
    end
  else None.

(** ** Sample inputs *)

Definition D_one : list json := [price_point 1700000000 9.5].
Definition R_next_day : list json := [price_point 1700086400000 9.7].
Definition R_same_day : list json := [price_point 1700000000000 9.9].

Definition R_two_same_day : list json :=
  [price_point 1700000000000 9.5; price_point 1700003600000 9.9].

(** An API that answers by window: two points for a long window, the
    newer one only for a short window. *)
Definition windowed_api (days : Z) : response :=
  Body (JDict [("prices",
    if 300 <? days
    then JList [price_point 1700086400000 9.7; price_point 1700000000000 9.5]
    else JList [price_point 1700086400000 9.7])]).

(** * Properties *)

(** ** The embedding on the scenarios of the specification *)

Example date_1700000000 : Calendar.utc_date 1700000000 = OK "2023-11-14".
Proof. reflexivity. Qed.

Example date_epoch : Calendar.utc_date 0 = OK "1970-01-01".
Proof. reflexivity. Qed.

Example date_min : Calendar.utc_date Calendar.MIN_TS = OK "1-01-01".
Proof. reflexivity. Qed.

Example date_max : Calendar.utc_date Calendar.MAX_TS = OK "9999-12-31".
Proof. reflexivity. Qed.

Example date_too_late : Calendar.utc_date (Calendar.MAX_TS + 1) = Raise RangeError.
Proof. reflexivity. Qed.

Example getitem_last :
  Py.getitem (JList [JInt 1; JInt 2; JInt 3]) (-1) = OK (JInt 3).
Proof. reflexivity. Qed.

Example getitem_empty : Py.getitem (JList []) (-1) = Raise IndexError.
Proof. reflexivity. Qed.

Example sort_is_stable :
  Py.sort_by_timestamp
    [JList [JInt 5; JStr "a"]; JList [JInt 3]; JList [JInt 5; JStr "b"]]
  = OK [JList [JInt 3]; JList [JInt 5; JStr "a"]; JList [JInt 5; JStr "b"]].
Proof. reflexivity. Qed.

Example scenario_first_run :
  fetch_and_save_data
    (scenario Missing [price_point 1700000000000 9.5; price_point 1700086400000 9.7])
  = Written [price_point 1700000000 9.5; price_point 1700086400 9.7] 2.
Proof. vm_compute. reflexivity. Qed.

Example scenario_same_date :
  fetch_and_save_data
    (scenario (Parsed (JList [price_point 1700000000 9.5]))
              [price_point 1700000000000 9.9])
  = UpToDate.
Proof. vm_compute. reflexivity. Qed.

(** A raw point of the current UTC date is dropped, the rest is stored. *)
Example scenario_today_dropped :
  fetch_and_save_data
    (scenario Missing [price_point 1700000000000 9.5; price_point 1800000000000 9.7])
  = Written [price_point 1700000000 9.5] 1.
Proof. vm_compute. reflexivity. Qed.

(** ** The error monad *)

Lemma bind_OK {A B} (m : result A) (f : A -> result B) (b : B) :
  m ≫= f = OK b <-> exists a, m = OK a /\ f a = OK b.
Proof.
  destruct m as [a|e]; simpl; split.
  - intros H. exists a. auto.
  - intros (a' & Ha & H). injection Ha as ->. exact H.
  - discriminate.
  - intros (a' & Ha & _). discriminate.
Qed.

Section Monad.
Context {A B : Type}.

Lemma mapM_OK_length (f : A -> result B) (l : list A) (k : list B) :
  mapM f l = OK k -> length k = length l.
Proof.
  revert k. induction l as [|x l IH]; simpl; intros k H.
  - injection H as <-. reflexivity.
  - apply bind_OK in H as (y & _ & H).
    apply bind_OK in H as (k' & Hk' & H).
    injection H as <-. simpl. f_equal. apply IH, Hk'.
Qed.

Lemma mapM_OK_app (f : A -> result B) (l1 l2 : list A) (k1 k2 : list B) :
  mapM f l1 = OK k1 -> mapM f l2 = OK k2 -> mapM f (l1 ++ l2) = OK (k1 ++ k2).
Proof.
  revert k1. induction l1 as [|x l1 IH]; simpl; intros k1 H1 H2.
  - injection H1 as <-. exact H2.
  - apply bind_OK in H1 as (y & Hy & H1).
    apply bind_OK in H1 as (k' & Hk' & H1).
    injection H1 as <-. rewrite Hy. simpl. rewrite (IH k' Hk' H2). reflexivity.
Qed.

Lemma mapM_OK_Forall2 (f : A -> result B) (l : list A) (k : list B) :
  mapM f l = OK k <-> Forall2 (fun x y => f x = OK y) l k.
Proof.
  revert k. induction l as [|x l IH]; simpl; intros k; split.
  - intros H. injection H as <-. constructor.
  - intros H. inversion H. reflexivity.
  - intros H. apply bind_OK in H as (y & Hy & H).
    apply bind_OK in H as (k' & Hk' & H). injection H as <-.
    constructor; [exact Hy | apply IH, Hk'].
  - intros H. inversion H as [|? y ? k' Hy Hk']; subst.
    rewrite Hy. simpl. apply IH in Hk'. rewrite Hk'. reflexivity.
Qed.
End Monad.

Lemma merge_entry_convert today st entry :
  merge_entry today st entry =
  c ← convert entry;
  if String.eqb c.1 today then OK st
  else if decide (c.1 ∈ existing_dates st) then OK st
  else
    data ← Py.append (existing_data st) c.2;
    OK {| existing_data := data;
          existing_dates := {[c.1]} ∪ existing_dates st;
          new_entries_count := new_entries_count st + 1 |}.
Proof.
  unfold merge_entry, convert.
  destruct (Py.getitem entry 0) as [ms|]; simpl; [|reflexivity].
  destruct (Py.floordiv_1000 ms) as [sec|]; simpl; [|reflexivity].
  destruct (Py.getitem entry 1) as [price|]; simpl; [|reflexivity].
  destruct (Py.date_str sec) as [d|]; reflexivity.
Qed.

Lemma dates_in_cons c cs : dates_in (c :: cs) = {[c.1]} ∪ dates_in cs.
Proof. reflexivity. Qed.

Lemma merge_loop_list today R : forall D dates n,
  merge_loop today R
    {| existing_data := JList D; existing_dates := dates; new_entries_count := n |}
  = cs ← mapM convert R; OK (after_merge D dates n (accepted today dates cs)).
Proof.
  induction R as [|entry R IH]; intros D dates n; simpl.
  - unfold after_merge. simpl. rewrite app_nil_r, Z.add_0_r.
    f_equal. f_equal. unfold dates_in. simpl. set_solver.
  - rewrite merge_entry_convert.
    destruct (convert entry) as [c|e]; simpl; [|reflexivity].
    destruct (String.eqb c.1 today) eqn:Htoday.
    + simpl. rewrite IH. destruct (mapM convert R); simpl; [|reflexivity].
      rewrite Htoday. reflexivity.
    + destruct (decide (c.1 ∈ dates)) as [Hin|Hout]; simpl.
      * rewrite IH. destruct (mapM convert R); simpl; [|reflexivity].
        rewrite Htoday. destruct (decide (c.1 ∈ dates)); [reflexivity|contradiction].
      * rewrite IH. destruct (mapM convert R) as [cs|]; simpl; [|reflexivity].
        rewrite Htoday. destruct (decide (c.1 ∈ dates)); [contradiction|].
        unfold after_merge. simpl. rewrite <- app_assoc. simpl.
        f_equal. f_equal.
        -- rewrite dates_in_cons. set_solver.
        -- lia.
Qed.

Lemma collect_dates_list entries : forall acc,
  collect_dates entries acc =
  ds ← mapM entry_date entries; OK (acc ∪ list_to_set ds).
Proof.
  induction entries as [|entry rest IH]; intros acc; simpl.
  - f_equal. set_solver.
  - transitivity (entry_date entry ≫= fun d => collect_dates rest ({[d]} ∪ acc));
      [unfold entry_date; destruct (Py.getitem entry 0); reflexivity|].
    destruct (entry_date entry) as [d|]; simpl; [|reflexivity].
    rewrite IH. destruct (mapM entry_date rest); simpl; [|reflexivity].
    f_equal. set_solver.
Qed.

Lemma merge_list D R today :
  merge (JList D) R today =
  ds ← mapM entry_date D;
  cs ← mapM convert R;
  OK (after_merge D (list_to_set ds) 0 (accepted today (list_to_set ds) cs)).
Proof.
  unfold merge, existing_dates_of. simpl. rewrite collect_dates_list.
  destruct (mapM entry_date D) as [ds|]; simpl; [|reflexivity].
  rewrite merge_loop_list.
  replace (∅ ∪ list_to_set ds : gset string) with (list_to_set ds : gset string)
    by set_solver.
  reflexivity.
Qed.

(** ** What the filters let through *)

Section Accepted.
Variable today : string.

Lemma eqb_today_false (d : string) : String.eqb d today = false <-> d <> today.
Proof. apply String.eqb_neq. Qed.

Lemma accepted_elem c cs : forall seen,
  c ∈ accepted today seen cs -> c ∈ cs /\ c.1 <> today /\ c.1 ∉ seen.
Proof.
  induction cs as [|c0 rest IH]; intros seen; simpl.
  - intros H. inversion H.
  - destruct (String.eqb c0.1 today) eqn:Htoday.
    + intros H. apply IH in H as (? & ? & ?). set_solver.
    + destruct (decide (c0.1 ∈ seen)) as [Hin|Hout].
      * intros H. apply IH in H as (? & ? & ?). set_solver.
      * intros H. apply elem_of_cons in H as [->|H].
        -- apply eqb_today_false in Htoday. set_solver.
        -- apply IH in H as (? & ? & ?). set_solver.
Qed.

Lemma accepted_NoDup cs : forall seen, NoDup (fst <$> accepted today seen cs).
Proof.
  induction cs as [|c rest IH]; intros seen; simpl.
  - constructor.
  - destruct (String.eqb c.1 today); [apply IH|].
    destruct (decide (c.1 ∈ seen)); [apply IH|].
    simpl. apply NoDup_cons. split; [|apply IH].
    intros Hin. apply list_elem_of_fmap in Hin as (c' & Heq & Hin).
    apply accepted_elem in Hin as (_ & _ & Hnot). set_solver.
Qed.

Lemma accepted_app cs1 cs2 : forall seen,
  accepted today seen (cs1 ++ cs2) =
  accepted today seen cs1 ++
  accepted today (seen ∪ dates_in (accepted today seen cs1)) cs2.
Proof.
  induction cs1 as [|c rest IH]; intros seen; simpl.
  - f_equal. unfold dates_in. simpl. set_solver.
  - destruct (String.eqb c.1 today); [apply IH|].
    destruct (decide (c.1 ∈ seen)); [apply IH|].
    simpl. rewrite IH, dates_in_cons. do 3 f_equal. set_solver.
Qed.

(** Everything is skipped once the accepted dates are in the index. *)
Lemma accepted_again cs : forall seen seen',
  seen ⊆ seen' -> dates_in (accepted today seen cs) ⊆ seen' ->
  accepted today seen' cs = [].
Proof.
  induction cs as [|c rest IH]; intros seen seen' Hsub; simpl; [reflexivity|].
  destruct (String.eqb c.1 today); [apply IH, Hsub|].
  destruct (decide (c.1 ∈ seen)) as [Hin|Hout]; intros Hacc.
  - destruct (decide (c.1 ∈ seen')); [|set_solver]. apply (IH seen); assumption.
  - rewrite dates_in_cons in Hacc.
    destruct (decide (c.1 ∈ seen')); [|set_solver].
    apply (IH ({[c.1]} ∪ seen)); set_solver.
Qed.

(** An entry whose date is new is accepted, provided the entries that
    share its date are equal to it. *)
Lemma accepted_complete c cs : forall seen,
  (forall c', c' ∈ cs -> c'.1 = c.1 -> c' = c) ->
  c ∈ cs -> c.1 <> today -> c.1 ∉ seen -> c ∈ accepted today seen cs.
Proof.
  induction cs as [|c0 rest IH]; intros seen Hsame Hin Htoday Hseen; simpl.
  - inversion Hin.
  - assert (Hrest : forall c', c' ∈ rest -> c'.1 = c.1 -> c' = c)
      by (intros; apply Hsame; set_solver).
    destruct (String.eqb c0.1 today) eqn:E.
    + apply String.eqb_eq in E. apply IH; try assumption.
      apply elem_of_cons in Hin as [->|]; [contradiction|assumption].
    + destruct (decide (c0.1 ∈ seen)) as [Hin0|Hout0].
      * apply IH; try assumption.
        apply elem_of_cons in Hin as [->|]; [contradiction|assumption].
      * destruct (decide (c0.1 = c.1)) as [Heq|Hne].
        -- rewrite (Hsame c0); [left|left|exact Heq].
        -- right. apply IH; try assumption; [|set_solver].
           apply elem_of_cons in Hin as [->|]; [contradiction|assumption].
Qed.

Lemma accepted_Permutation cs cs' seen :
  cs ≡ₚ cs' ->
  (forall c c', c ∈ cs -> c' ∈ cs -> c.1 = c'.1 -> c = c') ->
  accepted today seen cs ≡ₚ accepted today seen cs'.
Proof.
  intros Hperm Hsame.
  apply NoDup_Permutation.
  - eapply NoDup_fmap_1, accepted_NoDup.
  - eapply NoDup_fmap_1, accepted_NoDup.
  - intros c. split; intros H; apply accepted_elem in H as (Hin & Ht & Hs).
    + apply accepted_complete; try assumption; [|by rewrite <- Hperm].
      intros c' Hc' Heq. apply Hsame; [by rewrite Hperm|assumption|exact Heq].
    + apply accepted_complete; try assumption; [|by rewrite Hperm].
      intros c' Hc' Heq. apply Hsame; [assumption| by rewrite Hperm |exact Heq].
Qed.

Lemma filter_date_none (d : string) (l : list (string * json)) :
  (forall x, x ∈ l -> x.1 <> d) -> filter (fun x => x.1 = d) l = [].
Proof.
  induction l as [|x l IH]; intros H; [reflexivity|].
  rewrite filter_cons_False by (apply H; left).
  apply IH. intros y Hy. apply H. by right.
Qed.

(** The first entry of a new date is the one kept for that date. *)
Lemma accepted_first c cs1 cs2 seen :
  c.1 <> today -> c.1 ∉ seen -> c.1 ∉ fst <$> cs1 ->
  filter (fun x => x.1 = c.1) (accepted today seen (cs1 ++ c :: cs2)) = [c].
Proof.
  intros Htoday Hseen Hfirst.
  rewrite accepted_app, filter_app.
  set (seen1 := seen ∪ dates_in (accepted today seen cs1)).
  assert (Hseen1 : c.1 ∉ seen1).
  { unfold seen1, dates_in. intros H. apply elem_of_union in H as [H|H]; [contradiction|].
    apply elem_of_list_to_set, list_elem_of_fmap in H as (c' & Heq & H).
    apply accepted_elem in H as (H & _). apply Hfirst.
    rewrite Heq. by apply list_elem_of_fmap_2. }
  rewrite filter_date_none.
  2:{ intros x Hx Heq. apply accepted_elem in Hx as (Hx & _).
      apply Hfirst. rewrite <- Heq. by apply list_elem_of_fmap_2. }
  simpl. apply eqb_today_false in Htoday. rewrite Htoday.
  destruct (decide (c.1 ∈ seen1)); [contradiction|].
  rewrite filter_cons_True by reflexivity.
  rewrite filter_date_none; [reflexivity|].
  intros x Hx Heq. apply accepted_elem in Hx as (_ & _ & Hx). set_solver.
Qed.
End Accepted.

(** ** The sort: a permutation, ordered, and stable *)

Section Sorting.
Implicit Types (kx ky : Z * json) (l : list (Z * json)).

Lemma filter_date_none' (k : Z) l :
  (forall x, x ∈ l -> x.1 <> k) -> filter (fun x => x.1 = k) l = [].
Proof.
  induction l as [|x l IH]; intros H; [reflexivity|].
  rewrite filter_cons_False by (apply H; left).
  apply IH. intros y Hy. apply H. by right.
Qed.

Lemma insert_Permutation kx l : Py.insert kx l ≡ₚ kx :: l.
Proof.
  induction l as [|ky l IH]; simpl; [reflexivity|].
  destruct (kx.1 <=? ky.1); [reflexivity|].
  rewrite IH. apply Permutation_swap.
Qed.

Lemma stable_sort_Permutation l : Py.stable_sort l ≡ₚ l.
Proof.
  induction l as [|kx l IH]; simpl; [reflexivity|].
  by rewrite insert_Permutation, IH.
Qed.

Lemma insert_sorted kx l :
  StronglySorted key_le l -> StronglySorted key_le (Py.insert kx l).
Proof.
  induction 1 as [|ky l Hl IH Hky]; simpl.
  - repeat constructor.
  - destruct (Z.leb_spec kx.1 ky.1) as [Hle|Hlt].
    + constructor; [by constructor|].
      constructor; [exact Hle|].
      eapply Forall_impl; [exact Hky|]. unfold key_le. intros; simpl in *; lia.
    + constructor; [exact IH|].
      rewrite insert_Permutation. constructor; [|exact Hky].
      unfold key_le. lia.
Qed.

Lemma stable_sort_sorted l : StronglySorted key_le (Py.stable_sort l).
Proof.
  induction l as [|kx l IH]; simpl; [constructor|]. by apply insert_sorted.
Qed.

(** Insertion moves an element only past strictly smaller keys, so the
    entries of any one key keep their order. *)
Lemma insert_with_key k kx l :
  with_key k (Py.insert kx l) = with_key k (kx :: l).
Proof.
  unfold with_key. induction l as [|ky l IH]; simpl; [reflexivity|].
  destruct (Z.leb_spec kx.1 ky.1) as [Hle|Hlt]; [reflexivity|].
  rewrite (filter_cons _ ky), IH, !(filter_cons _ kx), (filter_cons _ ky).
  destruct (decide (kx.1 = k)), (decide (ky.1 = k)); try reflexivity. lia.
Qed.

Lemma stable_sort_with_key k l : with_key k (Py.stable_sort l) = with_key k l.
Proof.
  induction l as [|kx l IH]; simpl; [reflexivity|].
  rewrite insert_with_key. unfold with_key in *.
  by rewrite !(filter_cons _ kx), IH.
Qed.

Lemma sorted_unique l1 : forall l2,
  StronglySorted key_le l1 -> StronglySorted key_le l2 ->
  (forall k, with_key k l1 = with_key k l2) -> l1 = l2.
Proof.
  unfold with_key.
  induction l1 as [|a t1 IH]; intros l2 H1 H2 Hkeys.
  - destruct l2 as [|b t2]; [reflexivity|].
    specialize (Hkeys b.1). rewrite filter_cons_True in Hkeys by reflexivity.
    discriminate.
  - destruct l2 as [|b t2].
    { specialize (Hkeys a.1). rewrite filter_cons_True in Hkeys by reflexivity.
      discriminate. }
    apply StronglySorted_inv in H1 as [H1 Ha], H2 as [H2 Hb].
    assert (Hab : a.1 <= b.1).
    { assert (Hin : b ∈ filter (fun kx => kx.1 = b.1) (a :: t1)).
      { rewrite Hkeys. apply list_elem_of_filter. split; [reflexivity|left]. }
      apply list_elem_of_filter in Hin as [_ Hin].
      apply elem_of_cons in Hin as [->|Hin]; [lia|].
      rewrite Forall_forall in Ha. by apply Ha. }
    assert (Hba : b.1 <= a.1).
    { assert (Hin : a ∈ filter (fun kx => kx.1 = a.1) (b :: t2)).
      { rewrite <- Hkeys. apply list_elem_of_filter. split; [reflexivity|left]. }
      apply list_elem_of_filter in Hin as [_ Hin].
      apply elem_of_cons in Hin as [->|Hin]; [lia|].
      rewrite Forall_forall in Hb. by apply Hb. }
    assert (Heq : a.1 = b.1) by lia.
    pose proof (Hkeys a.1) as Hk.
    rewrite filter_cons_True in Hk by reflexivity.
    rewrite filter_cons_True in Hk by (symmetry; exact Heq).
    injection Hk as -> Hk. f_equal.
    apply IH; [assumption|assumption|].
    intros k. destruct (decide (b.1 = k)) as [<-|Hne]; [exact Hk|].
    specialize (Hkeys k). by rewrite !filter_cons_False in Hkeys.
Qed.

Lemma stable_sort_ext l1 l2 :
  (forall k, with_key k l1 = with_key k l2) ->
  Py.stable_sort l1 = Py.stable_sort l2.
Proof.
  intros H. apply sorted_unique; try apply stable_sort_sorted.
  intros k. by rewrite !stable_sort_with_key.
Qed.

(** Entries with pairwise distinct keys may be fed to the sort in any order. *)
Lemma with_key_Permutation k l l' :
  NoDup (fst <$> l) -> l ≡ₚ l' -> with_key k l = with_key k l'.
Proof.
  intros Hnd Hperm. unfold with_key.
  assert (Hlen : (length (filter (fun kx => kx.1 = k) l) <= 1)%nat).
  { clear Hperm. induction l as [|a l IH]; simpl; [lia|].
    apply NoDup_cons in Hnd as [Ha Hnd]. rewrite filter_cons.
    destruct (decide (a.1 = k)) as [Hk|]; [|by apply IH].
    rewrite filter_date_none'; [simpl; lia|].
    intros x Hx Hxk. apply Ha. rewrite Hk, <- Hxk. by apply list_elem_of_fmap_2. }
  assert (Hp : filter (fun kx => kx.1 = k) l ≡ₚ filter (fun kx => kx.1 = k) l')
    by (by rewrite Hperm).
  destruct (filter (fun kx => kx.1 = k) l) as [|a [|b t]]; simpl in Hlen; [| |lia].
  - by apply Permutation_nil_l in Hp.
  - by apply Permutation_singleton_l in Hp.
Qed.
End Sorting.

(** ** Dates and keys of stored entries *)

Lemma convert_shape r c :
  convert r = OK c ->
  exists n price, c.2 = JList [JInt n; price] /\ Calendar.utc_date n = OK c.1.
Proof.
  unfold convert. intros H.
  apply bind_OK in H as (ms & _ & H).
  apply bind_OK in H as (sec & Hsec & H).
  apply bind_OK in H as (price & _ & H).
  apply bind_OK in H as (d & Hd & H).
  injection H as <-. simpl.
  unfold Py.floordiv_1000 in Hsec. apply bind_OK in Hsec as (n & _ & Hsec).
  injection Hsec as <-. exists (n / 1000), price. split; [reflexivity|exact Hd].
Qed.

Lemma convert_entry_date r c : convert r = OK c -> entry_date c.2 = OK c.1.
Proof.
  intros H. apply convert_shape in H as (n & price & -> & Hd). exact Hd.
Qed.

Lemma entry_date_sort_key e d :
  entry_date e = OK d ->
  exists n, Py.sort_key e = OK n /\ Calendar.utc_date n = OK d.
Proof.
  unfold entry_date, Py.sort_key, Py.date_str. intros H.
  apply bind_OK in H as (ts & Hts & H). apply bind_OK in H as (n & Hn & H).
  exists n. rewrite Hts. simpl. auto.
Qed.

Lemma mapM_convert_dates R cs :
  mapM convert R = OK cs -> Forall (fun c => entry_date c.2 = OK c.1) cs.
Proof.
  intros H. apply mapM_OK_Forall2 in H.
  induction H as [|r c R cs Hc _ IH]; constructor; [|exact IH].
  by apply convert_entry_date in Hc.
Qed.

Lemma mapM_entry_date_new (new : list (string * json)) :
  Forall (fun c => entry_date c.2 = OK c.1) new ->
  mapM entry_date (snd <$> new) = OK (fst <$> new).
Proof.
  induction 1 as [|c new Hc _ IH]; [reflexivity|].
  rewrite !fmap_cons. cbn [mapM]. rewrite Hc, IH. reflexivity.
Qed.

Lemma accepted_Forall (P : string * json -> Prop) today seen cs :
  Forall P cs -> Forall P (accepted today seen cs).
Proof.
  rewrite !Forall_forall. intros H c Hc.
  apply accepted_elem in Hc as (Hc & _). by apply H.
Qed.

Lemma merge_OK D R today st :
  merge (JList D) R today = OK st <->
  exists ds cs,
    mapM entry_date D = OK ds /\ mapM convert R = OK cs /\
    st = after_merge D (list_to_set ds) 0 (accepted today (list_to_set ds) cs).
Proof.
  rewrite merge_list. split.
  - intros H. apply bind_OK in H as (ds & Hds & H).
    apply bind_OK in H as (cs & Hcs & H). injection H as <-. eauto.
  - intros (ds & cs & -> & -> & ->). reflexivity.
Qed.

Lemma mapM_total {A B} (f : A -> result B) (l : list A) :
  Forall (fun x => exists y, f x = OK y) l -> exists k, mapM f l = OK k.
Proof.
  induction 1 as [|x l [y Hy] _ [k Hk]]; simpl; [eauto|].
  rewrite Hy. simpl. rewrite Hk. simpl. eauto.
Qed.

Lemma merge_total D R today :
  Forall stored_point_ok D -> Forall raw_point_ok R ->
  exists st, merge (JList D) R today = OK st.
Proof.
  intros HD HR.
  apply mapM_total in HD as [ds Hds]. apply mapM_total in HR as [cs Hcs].
  eexists. apply merge_OK. eauto.
Qed.

(** ** The sort and the write step after a merge *)

Lemma keyed_OK x kx : Py.keyed x = OK kx -> Py.sort_key x = OK kx.1 /\ kx.2 = x.
Proof.
  unfold Py.keyed. intros H. apply bind_OK in H as (k & Hk & H).
  injection H as <-. auto.
Qed.

Lemma keys_snd l ks : Py.keys l = OK ks -> snd <$> ks = l.
Proof.
  intros H. apply mapM_OK_Forall2 in H.
  induction H as [|x kx l ks Hx _ IH]; [reflexivity|].
  apply keyed_OK in Hx as [_ Hx]. rewrite fmap_cons, IH, Hx. reflexivity.
Qed.

Lemma sort_Permutation l sorted :
  Py.sort_by_timestamp l = OK sorted -> sorted ≡ₚ l.
Proof.
  unfold Py.sort_by_timestamp. intros H. apply bind_OK in H as (ks & Hks & H).
  injection H as <-. rewrite stable_sort_Permutation. by rewrite (keys_snd l ks).
Qed.

Lemma stored_point_keyed e : stored_point_ok e -> exists kx, Py.keyed e = OK kx.
Proof.
  intros [d Hd]. apply entry_date_sort_key in Hd as (n & Hn & _).
  exists (n, e). unfold Py.keyed. rewrite Hn. reflexivity.
Qed.

Lemma sort_total l :
  Forall stored_point_ok l -> exists sorted, Py.sort_by_timestamp l = OK sorted.
Proof.
  intros H. unfold Py.sort_by_timestamp, Py.keys.
  destruct (mapM_total Py.keyed l) as [ks Hks].
  - eapply Forall_impl; [exact H|]. apply stored_point_keyed.
  - rewrite Hks. simpl. eauto.
Qed.

Lemma mapM_OK_stored D ds :
  mapM entry_date D = OK ds -> Forall stored_point_ok D.
Proof.
  intros H. apply mapM_OK_Forall2 in H.
  induction H; constructor; [eexists; eassumption|assumption].
Qed.

Lemma new_points_stored (new : list (string * json)) :
  Forall (fun c => entry_date c.2 = OK c.1) new ->
  Forall stored_point_ok (snd <$> new).
Proof. intros H. eapply mapM_OK_stored, mapM_entry_date_new, H. Qed.

Lemma commit_after_merge D dates new :
  Forall stored_point_ok (D ++ (snd <$> new)) ->
  exists sorted,
    Py.sort_by_timestamp (D ++ (snd <$> new)) = OK sorted /\
    commit (Z.of_nat (length D)) (after_merge D dates 0 new) =
    OK (match new with
        | [] => UpToDate
        | _ :: _ => Written sorted (Z.of_nat (length new))
        end).
Proof.
  intros H. destruct (sort_total _ H) as [sorted Hs]. exists sorted.
  split; [exact Hs|]. unfold commit, after_merge. cbn [new_entries_count existing_data].
  destruct new as [|c new]; [reflexivity|].
  replace (0 <? 0 + Z.of_nat (length (c :: new))) with true
    by (symmetry; apply Z.ltb_lt; simpl; lia).
  cbn [Py.len mbind result_bind].
  replace (_ <? _) with false.
  - rewrite Hs. reflexivity.
  - symmetry. apply Z.ltb_ge. rewrite length_app. lia.
Qed.

(** ** From an outcome of the run back to the merge that produced it *)

Lemma merge_entry_not_list today st entry st' :
  ~ is_list (existing_data st) -> merge_entry today st entry = OK st' -> st' = st.
Proof.
  intros Hnl. rewrite merge_entry_convert. intros H.
  apply bind_OK in H as (c & _ & H).
  destruct (String.eqb c.1 today); [congruence|].
  destruct (decide (c.1 ∈ existing_dates st)); [congruence|].
  apply bind_OK in H as (data & Hdata & _).
  destruct (existing_data st); try discriminate.
  exfalso. apply Hnl. eexists. reflexivity.
Qed.

Lemma merge_loop_not_list today R : forall st st',
  ~ is_list (existing_data st) -> merge_loop today R st = OK st' -> st' = st.
Proof.
  induction R as [|entry R IH]; simpl; intros st st' Hnl H.
  - congruence.
  - apply bind_OK in H as (st1 & H1 & H).
    apply (merge_entry_not_list _ _ _ _ Hnl) in H1. subst st1.
    by apply IH.
Qed.

Lemma load_list f D last :
  load f = Loaded (JList D) last -> D = stored_entries f.
Proof.
  destruct f as [| | | |v]; simpl; try congruence.
  destruct (Py.truthy v).
  - destruct (last_timestamp v) as [?|[]]; try discriminate.
    intros H. injection H as -> _. reflexivity.
  - intros H. injection H as -> _. reflexivity.
Qed.

Lemma run_commit w o :
  fetch_and_save_data w = o -> decided_by_commit o ->
  exists data last initial_count raw today st,
    load (price_data w) = Loaded data last /\
    Py.len data = OK initial_count /\
    Calendar.utc_date (clock_merge w / MICROSECONDS_PER_SECOND) = OK today /\
    merge data raw today = OK st /\
    commit initial_count st = OK o.
Proof.
  unfold fetch_and_save_data. intros H Ho.
  destruct (COINGECKO w) as [[|]|]; [subst; contradiction| |subst; contradiction].
  destruct (load (price_data w)) as [data last| |]; [|subst; contradiction..].
  destruct (Py.len data) as [initial_count|] eqn:Hlen; [|subst; contradiction].
  destruct (api w _) as [| | |body]; [subst; contradiction..|].
  assert (Hms : merge_and_save w data initial_count body = OK o).
  { destruct (merge_and_save w data initial_count body) as [o'|[]]; simpl in H;
      subst; try reflexivity; contradiction. }
  clear H. unfold merge_and_save in Hms.
  apply bind_OK in Hms as (new_data_raw & _ & Hms).
  destruct new_data_raw as [| | | | |raw|];
    try (injection Hms as <-; contradiction).
  apply bind_OK in Hms as (dates & Hdates & Hms).
  apply bind_OK in Hms as (today & Htoday & Hms).
  apply bind_OK in Hms as (st & Hst & Hms).
  exists data, last, initial_count, raw, today, st.
  repeat split; try assumption.
  unfold merge. rewrite Hdates. exact Hst.
Qed.

Lemma merge_not_list data R today st :
  ~ is_list data -> merge data R today = OK st -> new_entries_count st = 0.
Proof.
  unfold merge. intros Hnl H. apply bind_OK in H as (dates & _ & H).
  apply merge_loop_not_list in H; [|exact Hnl]. by subst st.
Qed.

Lemma is_list_dec (v : json) : {is_list v} + {~ is_list v}.
Proof.
  destruct v; try (right; intros [? ?]; discriminate).
  left. eexists. reflexivity.
Qed.

Lemma run_Written w data n :
  fetch_and_save_data w = Written data n ->
  exists raw today st,
    merge (JList (stored_entries (price_data w))) raw today = OK st /\
    commit (Z.of_nat (length (stored_entries (price_data w)))) st
    = OK (Written data n).
Proof.
  intros H. apply run_commit in H as (v & last & ic & raw & today & st &
    Hload & Hlen & _ & Hmerge & Hcommit); [|exact I].
  destruct (is_list_dec v) as [[D ->]|Hnl].
  - apply load_list in Hload as <-. injection Hlen as <-. eauto.
  - apply merge_not_list in Hmerge; [|exact Hnl].
    unfold commit in Hcommit. rewrite Hmerge in Hcommit. discriminate.
Qed.

(** ** More on [mapM] in the error monad *)

Section MapM.
Context {A B : Type} (f : A -> result B).

Lemma mapM_app_inv (l1 l2 : list A) (k : list B) :
  mapM f (l1 ++ l2) = OK k ->
  exists k1 k2, k = k1 ++ k2 /\ mapM f l1 = OK k1 /\ mapM f l2 = OK k2.
Proof.
  revert k. induction l1 as [|x l1 IH]; intros k H.
  - exists [], k. auto.
  - simpl in H. apply bind_OK in H as (y & Hy & H).
    apply bind_OK in H as (k' & Hk' & H). injection H as <-.
    apply IH in Hk' as (k1 & k2 & -> & H1 & H2).
    exists (y :: k1), k2. simpl. rewrite Hy, H1. auto.
Qed.

Lemma mapM_Permutation (l l' : list A) :
  l ≡ₚ l' -> forall k, mapM f l = OK k ->
  exists k', mapM f l' = OK k' /\ k ≡ₚ k'.
Proof.
  induction 1 as [|x l l' _ IH|x y l|l l' l'' _ IH1 _ IH2]; intros k H.
  - exists k. auto.
  - simpl in H. apply bind_OK in H as (b & Hb & H).
    apply bind_OK in H as (k0 & Hk0 & H). injection H as <-.
    destruct (IH _ Hk0) as (k' & Hk' & Hp).
    exists (b :: k'). simpl. rewrite Hb, Hk'. split; [reflexivity|by constructor].
  - simpl in H. apply bind_OK in H as (b & Hb & H).
    apply bind_OK in H as (k0 & Hk0 & H). injection H as <-.
    apply bind_OK in Hk0 as (a & Ha & Hk0).
    apply bind_OK in Hk0 as (k1 & Hk1 & Hk0). injection Hk0 as <-.
    exists (a :: b :: k1). simpl. rewrite Ha, Hb, Hk1.
    split; [reflexivity|apply Permutation_swap].
  - destruct (IH1 _ H) as (k' & Hk' & Hp).
    destruct (IH2 _ Hk') as (k'' & Hk'' & Hp').
    exists k''. split; [exact Hk''|by etransitivity].
Qed.

Lemma mapM_OK_elem_l (l : list A) (k : list B) (x : A) :
  mapM f l = OK k -> x ∈ l -> exists y, f x = OK y /\ y ∈ k.
Proof.
  intros H Hx. apply mapM_OK_Forall2 in H.
  induction H as [|x0 y0 l k H0 _ IH]; [inversion Hx|].
  apply elem_of_cons in Hx as [->|Hx].
  - exists y0. split; [exact H0|left].
  - destruct (IH Hx) as (y & Hy & Hin). exists y. split; [exact Hy|by right].
Qed.

Lemma mapM_OK_elem_r (l : list A) (k : list B) (y : B) :
  mapM f l = OK k -> y ∈ k -> exists x, f x = OK y /\ x ∈ l.
Proof.
  intros H Hy. apply mapM_OK_Forall2 in H.
  induction H as [|x0 y0 l k H0 _ IH]; [inversion Hy|].
  apply elem_of_cons in Hy as [->|Hy].
  - exists x0. split; [exact H0|left].
  - destruct (IH Hy) as (x & Hx & Hin). exists x. split; [exact Hx|by right].
Qed.
End MapM.

Lemma filter_dated_new (d : string) (new : list (string * json)) :
  Forall (fun c => entry_date c.2 = OK c.1) new ->
  filter (fun e => entry_date e = OK d) (snd <$> new)
  = snd <$> filter (fun c => c.1 = d) new.
Proof.
  induction 1 as [|c new Hc _ IH]; [reflexivity|].
  rewrite fmap_cons, !filter_cons, IH, Hc.
  destruct (decide (OK c.1 = OK d)) as [Heq|Hne], (decide (c.1 = d)) as [Heq'|Hne'];
    try reflexivity; congruence.
Qed.

(** The shape of every successful merge: the stored entries, then the
    accepted ones. *)
Lemma merge_appends D R today st :
  merge (JList D) R today = OK st ->
  exists ds cs,
    mapM entry_date D = OK ds /\ mapM convert R = OK cs /\
    let new := accepted today (list_to_set ds) cs in
    existing_data st = JList (D ++ (snd <$> new)) /\
    new_entries_count st = Z.of_nat (length (snd <$> new)) /\
    Forall (fun c => entry_date c.2 = OK c.1) new /\
    st = after_merge D (list_to_set ds) 0 new.
Proof.
  intros H. apply merge_OK in H as (ds & cs & Hds & Hcs & ->).
  exists ds, cs. repeat split; try assumption.
  - simpl. by rewrite length_fmap.
  - apply accepted_Forall. eapply mapM_convert_dates, Hcs.
Qed.

Lemma merge_commit D R today st :
  merge (JList D) R today = OK st ->
  exists new sorted,
    existing_data st = JList (D ++ new) /\
    new_entries_count st = Z.of_nat (length new) /\
    Forall stored_point_ok (D ++ new) /\
    Py.sort_by_timestamp (D ++ new) = OK sorted /\
    commit (Z.of_nat (length D)) st =
    OK (match new with
        | [] => UpToDate
        | _ :: _ => Written sorted (Z.of_nat (length new))
        end).
Proof.
  intros H. apply merge_appends in H as (ds & cs & Hds & Hcs & Hdata & Hn & Hnew & ->).
  set (new := accepted today (list_to_set ds) cs) in *.
  assert (Hok : Forall stored_point_ok (D ++ (snd <$> new))).
  { apply Forall_app. split; [eapply mapM_OK_stored, Hds|by apply new_points_stored]. }
  destruct (commit_after_merge D (list_to_set ds) new Hok) as (sorted & Hs & Hc).
  exists (snd <$> new), sorted. repeat split; try assumption.
  rewrite Hc, length_fmap. by destruct new.
Qed.

(** * The claims *)

(** Claim C1.  Non-shrinkage: whenever the merge of a stored dataset [D] with
    raw points [R] returns, the working dataset is [D] followed by the
    appended entries, one per counted entry, so its length is the original
    count plus the number appended; and the integrity check of the write step,
    run against the original count, never takes its abort branch. *)
Theorem merge_never_shrinks (D R : list json) (today : string) (st : merge_state) :
  merge (JList D) R today = OK st ->
  exists new,
    existing_data st = JList (D ++ new) /\
    new_entries_count st = Z.of_nat (length new) /\
    Py.len (existing_data st) = OK (Z.of_nat (length D) + Z.of_nat (length new)) /\
    commit (Z.of_nat (length D)) st <> OK IntegrityAbort.
Proof.
  intros H. apply merge_commit in H as (new & sorted & Hdata & Hn & _ & _ & Hc).
  exists new. repeat split; try assumption.
  - rewrite Hdata. simpl. rewrite length_app. f_equal. lia.
  - rewrite Hc. destruct new; discriminate.
Qed.

Lemma merge_never_shrinks_witness :
  exists st, merge (JList D_one) R_next_day "2027-01-15" = OK st /\
  exists new,
    existing_data st = JList (D_one ++ new) /\
    new_entries_count st = Z.of_nat (length new) /\
    Py.len (existing_data st) = OK (Z.of_nat (length D_one) + Z.of_nat (length new)) /\
    commit (Z.of_nat (length D_one)) st <> OK IntegrityAbort.
Proof.
  eexists. split; [vm_compute; reflexivity|].
  apply (merge_never_shrinks D_one R_next_day "2027-01-15").
  vm_compute. reflexivity.
Defined.

(** The same at the level of a whole run: line 124 is never reached. *)
Lemma run_never_integrity_abort (w : world) :
  fetch_and_save_data w <> IntegrityAbort.
Proof.
  intros H. apply run_commit in H as (v & last & ic & raw & today & st &
    Hload & Hlen & _ & Hmerge & Hcommit); [|exact I].
  destruct (is_list_dec v) as [[D ->]|Hnl].
  - injection Hlen as <-.
    apply merge_commit in Hmerge as (new & sorted & _ & _ & _ & _ & Hc).
    rewrite Hc in Hcommit. destruct new; discriminate.
  - apply merge_not_list in Hmerge; [|exact Hnl].
    unfold commit in Hcommit. rewrite Hmerge in Hcommit. discriminate.
Qed.

(** Claim C8.  Frame: whenever the merge of a loaded dataset [D] with raw
    points [R] returns, the candidate is [D] itself, entry for entry and in
    place, followed by the appended entries; and the dataset the write step
    then stores is a reordering of exactly that list, so every entry of [D]
    is in it unmodified. *)
Theorem candidate_extends_loaded (D R : list json) (today : string) (st : merge_state) :
  merge (JList D) R today = OK st ->
  exists new,
    existing_data st = JList (D ++ new) /\
    forall data n,
      commit (Z.of_nat (length D)) st = OK (Written data n) ->
      data ≡ₚ D ++ new /\ forall e, e ∈ D -> e ∈ data.
Proof.
  intros H. apply merge_commit in H as (new & sorted & Hdata & _ & _ & Hs & Hc).
  exists new. split; [exact Hdata|].
  intros data n Hw. rewrite Hc in Hw.
  destruct new as [|e0 new]; [discriminate|]. injection Hw as <- _.
  apply sort_Permutation in Hs. split; [exact Hs|].
  intros e He. rewrite Hs. apply elem_of_app. by left.
Qed.

Lemma candidate_extends_loaded_witness :
  exists st, merge (JList D_one) R_next_day "2027-01-15" = OK st /\
  exists new,
    existing_data st = JList (D_one ++ new) /\
    forall data n,
      commit (Z.of_nat (length D_one)) st = OK (Written data n) ->
      data ≡ₚ D_one ++ new /\ forall e, e ∈ D_one -> e ∈ data.
Proof.
  eexists. split; [vm_compute; reflexivity|].
  apply (candidate_extends_loaded D_one R_next_day "2027-01-15").
  vm_compute. reflexivity.
Defined.

(** The same for a run that writes: the file holds the stored entries and
    the counted new ones, reordered. *)
Lemma run_written_extends_stored (w : world) (data : list json) (n : Z) :
  fetch_and_save_data w = Written data n ->
  exists new,
    data ≡ₚ stored_entries (price_data w) ++ new /\ n = Z.of_nat (length new).
Proof.
  intros H. apply run_Written in H as (raw & today & st & Hmerge & Hcommit).
  apply merge_commit in Hmerge as (new & sorted & _ & _ & _ & Hs & Hc).
  rewrite Hc in Hcommit. destruct new as [|e0 new]; [discriminate|].
  injection Hcommit as <- <-. exists (e0 :: new).
  split; [by apply sort_Permutation|reflexivity].
Qed.

(** Claim C6.  No overwrite: let [e] be a stored entry of [D] with date [d].
    Whenever the merge with any raw points returns, [D] is still there entry
    for entry, ahead of the appended entries; none of the appended entries
    carries the date [d], and the counter counts the appended entries only.
    If every raw point falls on [d], nothing is appended, the counter is 0
    and the write step reports that nothing changed. *)
Theorem stored_date_is_never_overwritten
  (D R : list json) (today : string) (st : merge_state) (d : string) (e : json) :
  merge (JList D) R today = OK st ->
  e ∈ D -> entry_date e = OK d ->
  exists new,
    existing_data st = JList (D ++ new) /\
    new_entries_count st = Z.of_nat (length new) /\
    Forall (fun e' => entry_date e' <> OK d) new /\
    (Forall (fun r => exists c, convert r = OK c /\ c.1 = d) R ->
     new = [] /\ new_entries_count st = 0 /\
     commit (Z.of_nat (length D)) st = OK UpToDate).
Proof.
  intros H He Hd.
  pose proof (merge_commit _ _ _ _ H) as (new' & sorted & Hdata' & _ & _ & _ & Hc).
  apply merge_appends in H as (ds & cs & Hds & Hcs & Hdata & Hn & Hnew & _).
  set (new := accepted today (list_to_set ds) cs) in *.
  assert (Hseen : d ∈ (list_to_set ds : gset string)).
  { destruct (mapM_OK_elem_l _ _ _ _ Hds He) as (d' & Hd' & Hin).
    rewrite Hd in Hd'. injection Hd' as <-. by apply elem_of_list_to_set. }
  assert (Hnone : forall c, c ∈ new -> c.1 <> d).
  { intros c Hc' Heq. apply accepted_elem in Hc' as (_ & _ & Hout).
    rewrite Heq in Hout. contradiction. }
  assert (Hempty : Forall (fun r => exists c, convert r = OK c /\ c.1 = d) R ->
                   new = []).
  { intros HR.
    assert (Hno : forall c, c ∈ new -> False).
    { intros c Hc'. pose proof (Hnone c Hc') as Hne.
      apply accepted_elem in Hc' as (Hin & _).
      destruct (mapM_OK_elem_r _ _ _ _ Hcs Hin) as (r & Hr & HrR).
      rewrite Forall_forall in HR. destruct (HR r HrR) as (c' & Hr' & Hd').
      congruence. }
    destruct new as [|c new0]; [reflexivity|]. destruct (Hno c). left. }
  exists (snd <$> new). repeat split; try assumption.
  - apply Forall_fmap, Forall_forall. intros c Hc'. simpl.
    rewrite Forall_forall in Hnew. rewrite (Hnew c Hc').
    intros Heq. injection Heq as Heq. by apply (Hnone c).
  - by rewrite Hempty.
  - by rewrite Hn, Hempty.
  - rewrite Hc. rewrite Hdata in Hdata'. injection Hdata' as Heq.
    apply app_inv_head in Heq. by rewrite <- Heq, Hempty.
Qed.

Lemma stored_date_is_never_overwritten_witness :
  exists st, merge (JList D_one) R_same_day "2027-01-15" = OK st /\
  exists new,
    existing_data st = JList (D_one ++ new) /\
    new_entries_count st = Z.of_nat (length new) /\
    Forall (fun e' => entry_date e' <> OK "2023-11-14") new /\
    (Forall (fun r => exists c, convert r = OK c /\ c.1 = "2023-11-14") R_same_day ->
     new = [] /\ new_entries_count st = 0 /\
     commit (Z.of_nat (length D_one)) st = OK UpToDate).
Proof.
  eexists. split; [vm_compute; reflexivity|].
  apply (stored_date_is_never_overwritten D_one R_same_day "2027-01-15" _
           "2023-11-14" (price_point 1700000000 9.5)).
  - vm_compute. reflexivity.
  - left.
  - vm_compute. reflexivity.
Defined.

(** Claim C9.  Re-running is a no-op: take the dataset a successful merge of
    [D] with [R] leaves, in the order it has in memory or in any other order
    (in particular sorted, as written to the file), and merge the same [R]
    into it on the same day.  That merge returns, appends nothing, counts 0,
    and the write step reports that nothing changed: there is no write. *)
Theorem second_merge_adds_nothing
  (D R : list json) (today : string) (st : merge_state) (items items' : list json) :
  merge (JList D) R today = OK st ->
  existing_data st = JList items ->
  items' ≡ₚ items ->
  exists st2,
    merge (JList items') R today = OK st2 /\
    existing_data st2 = JList items' /\
    new_entries_count st2 = 0 /\
    commit (Z.of_nat (length items')) st2 = OK UpToDate.
Proof.
  intros H Hitems Hperm.
  apply merge_appends in H as (ds & cs & Hds & Hcs & Hdata & _ & Hnew & _).
  set (new := accepted today (list_to_set ds) cs) in *.
  rewrite Hdata in Hitems. injection Hitems as <-.
  pose proof (mapM_OK_app _ _ _ _ _ Hds (mapM_entry_date_new new Hnew)) as Hall.
  destruct (mapM_Permutation entry_date _ _ (symmetry Hperm) _ Hall)
    as (ds' & Hds' & Hp).
  assert (Hagain : accepted today (list_to_set ds') cs = []).
  { apply (accepted_again today cs (list_to_set ds)).
    - intros x Hx. apply elem_of_list_to_set. rewrite <- Hp.
      apply elem_of_app. left. by apply elem_of_list_to_set in Hx.
    - intros x Hx. apply elem_of_list_to_set. rewrite <- Hp.
      apply elem_of_app. right. by apply elem_of_list_to_set in Hx. }
  exists (after_merge items' (list_to_set ds') 0 []).
  split; [|split; [|split]].
  - apply merge_OK. exists ds', cs. by rewrite Hagain.
  - simpl. by rewrite app_nil_r.
  - reflexivity.
  - reflexivity.
Qed.

Lemma second_merge_adds_nothing_witness :
  exists st items,
    merge (JList D_one) R_next_day "2027-01-15" = OK st /\
    existing_data st = JList items /\
  exists st2,
    merge (JList items) R_next_day "2027-01-15" = OK st2 /\
    existing_data st2 = JList items /\
    new_entries_count st2 = 0 /\
    commit (Z.of_nat (length items)) st2 = OK UpToDate.
Proof.
  eexists. eexists. split; [vm_compute; reflexivity|]. split; [reflexivity|].
  eapply (second_merge_adds_nothing D_one R_next_day "2027-01-15").
  - vm_compute. reflexivity.
  - reflexivity.
  - reflexivity.
Defined.

(** Claim C10.  First point of a date wins: let [r] be a raw point whose date
    [d] is not today and not the date of a stored entry, and let no raw point
    before [r] in the input fall on [d].  Then, whatever follows [r], the
    appended entries hold exactly one entry dated [d], and it is the entry
    made from [r]; the counter counts the appended entries, so later points
    of [d] are neither stored nor counted. *)
Theorem first_point_of_a_date_wins
  (D R1 R2 : list json) (r : json) (today : string) (st : merge_state)
  (c : string * json) :
  merge (JList D) (R1 ++ r :: R2) today = OK st ->
  convert r = OK c ->
  c.1 <> today ->
  Forall (fun e => entry_date e <> OK c.1) D ->
  Forall (fun r' => forall c', convert r' = OK c' -> c'.1 <> c.1) R1 ->
  exists new,
    existing_data st = JList (D ++ new) /\
    new_entries_count st = Z.of_nat (length new) /\
    filter (fun e => entry_date e = OK c.1) new = [c.2].
Proof.
  intros H Hr Htoday HD HR1.
  apply merge_appends in H as (ds & cs & Hds & Hcs & Hdata & Hn & Hnew & _).
  set (new := accepted today (list_to_set ds) cs) in *.
  exists (snd <$> new). repeat split; try assumption.
  rewrite filter_dated_new by exact Hnew.
  apply mapM_app_inv in Hcs as (cs1 & cs2' & Hcs & H1 & H2).
  simpl in H2. rewrite Hr in H2. simpl in H2.
  apply bind_OK in H2 as (cs2 & H2 & Heq). injection Heq as <-.
  unfold new. rewrite Hcs, accepted_first; [reflexivity|exact Htoday| |].
  - intros Hin. apply elem_of_list_to_set in Hin.
    destruct (mapM_OK_elem_r _ _ _ _ Hds Hin) as (e & He & HeD).
    rewrite Forall_forall in HD. by apply (HD e HeD).
  - intros Hin. apply list_elem_of_fmap in Hin as (c' & Heq & Hin).
    destruct (mapM_OK_elem_r _ _ _ _ H1 Hin) as (r' & Hr' & Hr'R).
    rewrite Forall_forall in HR1. by apply (HR1 r' Hr'R c' Hr').
Qed.

Lemma first_point_of_a_date_wins_witness :
  exists st,
    merge (JList []) R_two_same_day "2027-01-15" = OK st /\
  exists new,
    existing_data st = JList ([] ++ new) /\
    new_entries_count st = Z.of_nat (length new) /\
    filter (fun e => entry_date e = OK "2023-11-14") new
    = [price_point 1700000000 9.5].
Proof.
  eexists. split; [vm_compute; reflexivity|].
  apply (first_point_of_a_date_wins [] [] [price_point 1700003600000 9.9]
           (price_point 1700000000000 9.5) "2027-01-15" _
           ("2023-11-14", price_point 1700000000 9.5)).
  - vm_compute. reflexivity.
  - vm_compute. reflexivity.
  - discriminate.
  - constructor.
  - constructor.
Defined.

(** ** The fetch planner *)

(** Claim C3, as stated, fails: a last timestamp three days ahead of the
    clock asks for -1 days. *)
Lemma days_to_fetch_future_timestamp :
  days_to_fetch 1700259200 (1700000000 * MICROSECONDS_PER_SECOND) = -1 /\
  ~ (1 <= days_to_fetch 1700259200 (1700000000 * MICROSECONDS_PER_SECOND) <= 365).
Proof. split; [reflexivity|]. vm_compute. intros [H _]. apply H. reflexivity. Qed.

(** Claim C3, amended.  The number of days is in [1, 365] exactly when there
    is no last timestamp (it is 0 or less) or the last timestamp is at most
    one day ahead of the clock; and with no last timestamp it is 365. *)
Theorem days_to_fetch_range (last_timestamp_sec now_us : Z) :
  ((last_timestamp_sec <= 0 \/
    last_timestamp_sec * MICROSECONDS_PER_SECOND <= now_us + MICROSECONDS_PER_DAY)
   <-> 1 <= days_to_fetch last_timestamp_sec now_us <= 365) /\
  (last_timestamp_sec <= 0 -> days_to_fetch last_timestamp_sec now_us = 365).
Proof.
  unfold days_to_fetch, timedelta_days, MICROSECONDS_PER_SECOND, MICROSECONDS_PER_DAY.
  destruct (Z.ltb_spec 0 last_timestamp_sec) as [Hpos|Hnone];
    [|split; [split; [lia|auto]|reflexivity]].
  set (q := (now_us - last_timestamp_sec * 1000000) / 86400000000).
  assert (Hq : 86400000000 * q <= now_us - last_timestamp_sec * 1000000
               < 86400000000 * q + 86400000000).
  { unfold q.
    pose proof (Z.mul_div_le (now_us - last_timestamp_sec * 1000000) 86400000000).
    pose proof (Z.mul_succ_div_gt (now_us - last_timestamp_sec * 1000000) 86400000000).
    lia. }
  split; [|lia].
  destruct (Z.ltb_spec 365 (q + 2)); split; intros; try lia.
Qed.

Lemma days_to_fetch_range_witness :
  1 <= days_to_fetch 1700000000 (1700259200 * MICROSECONDS_PER_SECOND) <= 365 /\
  days_to_fetch 0 (1700259200 * MICROSECONDS_PER_SECOND) = 365.
Proof.
  split.
  - apply (proj1 (proj1 (days_to_fetch_range 1700000000
                           (1700259200 * MICROSECONDS_PER_SECOND)))).
    right. vm_compute. discriminate.
  - apply (proj2 (days_to_fetch_range 0 (1700259200 * MICROSECONDS_PER_SECOND))).
    reflexivity.
Defined.

Example days_after_three_days :
  days_to_fetch 1700000000 (1700259200 * MICROSECONDS_PER_SECOND) = 5.
Proof. reflexivity. Qed.

Example days_without_history : days_to_fetch 0 1700000000000000 = 365.
Proof. reflexivity. Qed.

(** ** The loader *)

(** Claim C2, as stated, fails for content that is valid JSON of another
    shape.  The object [{}] is loaded as an empty dataset and the fetch goes
    ahead; the list [[[1700000000]]], whose entry is not a pair, is loaded,
    merged and written back. *)
Lemma wrong_shape_is_not_corrupt :
  let w1 := scenario (Parsed (JDict [])) R_next_day in
  let w2 := scenario (Parsed (JList [JList [JInt 1700000000]])) R_next_day in
  (structurally_invalid (price_data w1) = true /\
   load (price_data w1) = Loaded (JDict []) 0 /\
   fetch_and_save_data w1 = Uncaught AttributeError true /\
   fetch_attempted (fetch_and_save_data w1) = true) /\
  (structurally_invalid (price_data w2) = true /\
   load (price_data w2) = Loaded (JList [JList [JInt 1700000000]]) 1700000000 /\
   fetch_and_save_data w2
   = Written [JList [JInt 1700000000]; price_point 1700086400 9.7] 1 /\
   fetch_attempted (fetch_and_save_data w2) = true /\
   no_write (fetch_and_save_data w2) = false).
Proof. vm_compute. repeat split; reflexivity. Qed.

(** Claim C2, amended.  When the stored content is not valid JSON
    ([json.loads] raises [JSONDecodeError]) the loader fails with
    [CorruptStore], and the run ends there: with a credential its outcome is
    that abort, without one it has already ended at line 17; either way no
    fetch is attempted and nothing is written. *)
Theorem invalid_json_aborts_run (w : world) :
  price_data w = NotJSON ->
  load (price_data w) = LoadAbort CorruptStore /\
  (has_credential w = true -> fetch_and_save_data w = LoaderAbort CorruptStore) /\
  no_fetch (fetch_and_save_data w) = true /\
  no_write (fetch_and_save_data w) = true.
Proof.
  intros H. unfold fetch_and_save_data, has_credential. rewrite H. simpl.
  destruct (COINGECKO w) as [[|]|]; simpl; repeat split; auto; discriminate.
Qed.

Lemma invalid_json_aborts_run_witness :
  let w := scenario NotJSON R_next_day in
  load (price_data w) = LoadAbort CorruptStore /\
  (has_credential w = true -> fetch_and_save_data w = LoaderAbort CorruptStore) /\
  no_fetch (fetch_and_save_data w) = true /\
  no_write (fetch_and_save_data w) = true.
Proof.
  apply (invalid_json_aborts_run (scenario NotJSON R_next_day)). reflexivity.
Defined.

(** ** Today's candle *)

(** Claim C4, as stated, fails: the filter looks at incoming points only, so
    a stored entry dated today stays in the candidate and in the file. *)
Lemma stored_entry_of_today_is_kept :
  let D := [price_point 1700000000 9.5] in
  let R := [price_point 1699900000000 9.0] in
  entry_date (price_point 1700000000 9.5) = OK "2023-11-14" /\
  exists st,
    merge (JList D) R "2023-11-14" = OK st /\
    existing_data st
    = JList [price_point 1700000000 9.5; price_point 1699900000 9.0] /\
    commit (Z.of_nat (length D)) st
    = OK (Written [price_point 1699900000 9.0; price_point 1700000000 9.5] 1).
Proof.
  split; [reflexivity|]. eexists. split; [vm_compute; reflexivity|].
  split; reflexivity.
Qed.

(** Claim C4, amended.  The merge appends no entry dated today: whenever it
    returns, every appended entry has a date and that date is not today.
    Hence, if no stored entry of [D] is dated today, neither is any entry of
    the candidate nor of the dataset the write step stores. *)
Theorem merge_appends_nothing_of_today
  (D R : list json) (today : string) (st : merge_state) :
  merge (JList D) R today = OK st ->
  exists new,
    existing_data st = JList (D ++ new) /\
    Forall (fun e => exists d, entry_date e = OK d /\ d <> today) new /\
    (Forall (not_dated today) D ->
     Forall (not_dated today) (D ++ new) /\
     forall data n,
       commit (Z.of_nat (length D)) st = OK (Written data n) ->
       Forall (not_dated today) data).
Proof.
  intros H.
  pose proof (merge_commit _ _ _ _ H) as (new' & sorted & Hdata' & _ & _ & Hs & Hc).
  apply merge_appends in H as (ds & cs & Hds & Hcs & Hdata & _ & Hnew & _).
  set (new := accepted today (list_to_set ds) cs) in *.
  rewrite Hdata in Hdata'. injection Hdata' as Heq. apply app_inv_head in Heq.
  subst new'.
  assert (Hfresh : Forall (fun e => exists d, entry_date e = OK d /\ d <> today)
                          (snd <$> new)).
  { apply Forall_fmap, Forall_forall. intros c Hc'. simpl. exists c.1.
    rewrite Forall_forall in Hnew. split; [by apply Hnew|].
    by apply accepted_elem in Hc' as (_ & ? & _). }
  exists (snd <$> new). split; [exact Hdata|]. split; [exact Hfresh|].
  intros HD.
  assert (Hall : Forall (not_dated today) (D ++ (snd <$> new))).
  { apply Forall_app. split; [exact HD|].
    eapply Forall_impl; [exact Hfresh|].
    intros e (d & Hd & Hne) Heq. rewrite Hd in Heq. congruence. }
  split; [exact Hall|].
  intros data n Hw. rewrite Hc in Hw.
  destruct (snd <$> new) as [|e0 new0]; [discriminate|]. injection Hw as <- _.
  apply sort_Permutation in Hs. by rewrite Hs.
Qed.

Lemma merge_appends_nothing_of_today_witness :
  exists st, merge (JList D_one) R_next_day "2027-01-15" = OK st /\
  exists new,
    existing_data st = JList (D_one ++ new) /\
    Forall (fun e => exists d, entry_date e = OK d /\ d <> "2027-01-15") new /\
    (Forall (not_dated "2027-01-15") D_one ->
     Forall (not_dated "2027-01-15") (D_one ++ new) /\
     forall data n,
       commit (Z.of_nat (length D_one)) st = OK (Written data n) ->
       Forall (not_dated "2027-01-15") data).
Proof.
  eexists. split; [vm_compute; reflexivity|].
  apply (merge_appends_nothing_of_today D_one R_next_day "2027-01-15").
  vm_compute. reflexivity.
Defined.

(** ** One entry per date *)

Lemma one_per_date_Permutation items items' :
  items ≡ₚ items' -> one_per_date items -> one_per_date items'.
Proof.
  intros Hp (ds & Hds & Hnd).
  destruct (mapM_Permutation entry_date _ _ Hp _ Hds) as (ds' & Hds' & Hp').
  exists ds'. split; [exact Hds'|]. by rewrite <- Hp'.
Qed.

Lemma merge_one_per_date D R today st :
  merge (JList D) R today = OK st -> one_per_date D ->
  exists new sorted,
    existing_data st = JList (D ++ new) /\
    one_per_date (D ++ new) /\
    Py.sort_by_timestamp (D ++ new) = OK sorted /\
    commit (Z.of_nat (length D)) st =
    OK (match new with
        | [] => UpToDate
        | _ :: _ => Written sorted (Z.of_nat (length new))
        end).
Proof.
  intros H (ds0 & Hds0 & Hnd).
  pose proof (merge_commit _ _ _ _ H) as (new' & sorted & Hdata' & _ & _ & Hs & Hc).
  apply merge_appends in H as (ds & cs & Hds & Hcs & Hdata & _ & Hnew & _).
  set (new := accepted today (list_to_set ds) cs) in *.
  rewrite Hdata in Hdata'. injection Hdata' as Heq. apply app_inv_head in Heq.
  subst new'. rewrite Hds in Hds0. injection Hds0 as <-.
  exists (snd <$> new), sorted. repeat split; try assumption.
  exists (ds ++ (fst <$> new)).
  split; [by apply mapM_OK_app, mapM_entry_date_new|].
  apply NoDup_app. split; [exact Hnd|]. split; [|apply accepted_NoDup].
  intros d Hd Hin. apply list_elem_of_fmap in Hin as (c & -> & Hin).
  apply accepted_elem in Hin as (_ & _ & Hout).
  apply Hout. by apply elem_of_list_to_set.
Qed.

(** Claim C7, as stated, fails: the stored entries are never de-duplicated.
    A file with two entries of 2023-11-14 is written back with both. *)
Lemma stored_duplicates_are_written_back :
  let stored := [price_point 1700000000 9.5; price_point 1700003600 9.9] in
  let w := scenario (Parsed (JList stored)) R_next_day in
  fetch_and_save_data w
  = Written [price_point 1700000000 9.5; price_point 1700003600 9.9;
             price_point 1700086400 9.7] 1 /\
  entry_date (price_point 1700000000 9.5) = OK "2023-11-14" /\
  entry_date (price_point 1700003600 9.9) = OK "2023-11-14" /\
  ~ one_per_date [price_point 1700000000 9.5; price_point 1700003600 9.9;
                  price_point 1700086400 9.7].
Proof.
  repeat split; try (vm_compute; reflexivity).
  intros (ds & Hds & Hnd). vm_compute in Hds. injection Hds as <-.
  apply NoDup_cons in Hnd as [Hnotin _]. apply Hnotin. left.
Qed.

(** Claim C7, amended.  When the loaded dataset [D] has at most one entry per
    UTC date, so has every dataset made from it: the candidate of a merge
    that returns, and the sorted dataset the write step stores.  The empty
    dataset of a first run is such a [D]. *)
Theorem one_entry_per_date_is_preserved
  (D R : list json) (today : string) (st : merge_state) :
  merge (JList D) R today = OK st ->
  one_per_date D ->
  exists new,
    existing_data st = JList (D ++ new) /\
    one_per_date (D ++ new) /\
    forall data n,
      commit (Z.of_nat (length D)) st = OK (Written data n) -> one_per_date data.
Proof.
  intros H HD.
  destruct (merge_one_per_date _ _ _ _ H HD) as (new & sorted & Hdata & Hone & Hs & Hc).
  exists new. repeat split; try assumption.
  intros data n Hw. rewrite Hc in Hw.
  destruct new as [|e0 new]; [discriminate|]. injection Hw as <- _.
  apply sort_Permutation in Hs. eapply one_per_date_Permutation; [|exact Hone].
  by symmetry.
Qed.

Lemma one_entry_per_date_is_preserved_witness :
  exists st, merge (JList D_one) R_next_day "2027-01-15" = OK st /\
  exists new,
    existing_data st = JList (D_one ++ new) /\
    one_per_date (D_one ++ new) /\
    forall data n,
      commit (Z.of_nat (length D_one)) st = OK (Written data n) -> one_per_date data.
Proof.
  eexists. split; [vm_compute; reflexivity|].
  apply (one_entry_per_date_is_preserved D_one R_next_day "2027-01-15").
  - vm_compute. reflexivity.
  - exists ["2023-11-14"%string]. split; [reflexivity|].
    apply NoDup_singleton.
Defined.

Lemma one_per_date_nil : one_per_date [].
Proof. exists []. split; [reflexivity|constructor]. Qed.

(** The same for a run that writes. *)
Lemma run_written_one_per_date (w : world) (data : list json) (n : Z) :
  fetch_and_save_data w = Written data n ->
  one_per_date (stored_entries (price_data w)) ->
  one_per_date data.
Proof.
  intros H HD. apply run_Written in H as (raw & today & st & Hmerge & Hcommit).
  destruct (merge_one_per_date _ _ _ _ Hmerge HD)
    as (new & sorted & _ & Hone & Hs & Hc).
  rewrite Hc in Hcommit. destruct new as [|e0 new]; [discriminate|].
  injection Hcommit as <- _.
  apply sort_Permutation in Hs. eapply one_per_date_Permutation; [|exact Hone].
  by symmetry.
Qed.

(** ** Order of the raw points *)

Lemma keys_of_new_NoDup (new : list (string * json)) (kN : list (Z * json)) :
  Forall (fun c => entry_date c.2 = OK c.1) new ->
  NoDup (fst <$> new) ->
  Py.keys (snd <$> new) = OK kN ->
  NoDup (fst <$> kN).
Proof.
  intros Hnew Hnd Hk.
  assert (Hdates : Calendar.utc_date <$> (fst <$> kN) = OK <$> (fst <$> new)).
  { apply mapM_OK_Forall2 in Hk. clear Hnd.
    revert kN Hk. induction Hnew as [|c new Hc _ IH]; intros kN Hk.
    - inversion Hk. reflexivity.
    - rewrite fmap_cons in Hk. inversion Hk as [|? kx ? kN' Hkx Hrest]; subst.
      rewrite !fmap_cons. f_equal; [|by apply IH].
      apply keyed_OK in Hkx as [Hkey _].
      apply entry_date_sort_key in Hc as (n & Hn & Hd). congruence. }
  eapply (NoDup_fmap_1 Calendar.utc_date). rewrite Hdates.
  apply NoDup_fmap_2; [|exact Hnd]. intros x y Heq. by injection Heq.
Qed.

Lemma accepted_Permutation_new today cs cs' seen :
  cs ≡ₚ cs' ->
  (forall c c', c ∈ cs -> c' ∈ cs -> c.1 = c'.1 ->
                c.1 <> today -> c.1 ∉ seen -> c = c') ->
  accepted today seen cs ≡ₚ accepted today seen cs'.
Proof.
  intros Hperm Hsame.
  apply NoDup_Permutation.
  - eapply NoDup_fmap_1, accepted_NoDup.
  - eapply NoDup_fmap_1, accepted_NoDup.
  - intros c. split; intros H; apply accepted_elem in H as (Hin & Ht & Hs).
    + apply accepted_complete; try assumption; [|by rewrite <- Hperm].
      intros c' Hc' Heq. symmetry.
      apply Hsame; [assumption|by rewrite Hperm|by symmetry|assumption|assumption].
    + apply accepted_complete; try assumption; [|by rewrite Hperm].
      intros c' Hc' Heq. symmetry.
      apply Hsame; [by rewrite Hperm|assumption|by symmetry|assumption|assumption].
Qed.

Lemma sort_insensitive (D N N' : list json) (kD kN : list (Z * json)) :
  Py.keys D = OK kD -> Py.keys N = OK kN -> NoDup (fst <$> kN) -> N ≡ₚ N' ->
  Py.sort_by_timestamp (D ++ N') = Py.sort_by_timestamp (D ++ N).
Proof.
  intros HD HN Hnd Hp.
  destruct (mapM_Permutation Py.keyed _ _ Hp _ HN) as (kN' & HN' & Hp').
  unfold Py.sort_by_timestamp, Py.keys.
  rewrite (mapM_OK_app _ _ _ _ _ HD HN), (mapM_OK_app _ _ _ _ _ HD HN'). simpl.
  do 2 f_equal. apply stable_sort_ext. intros k. unfold with_key.
  rewrite !filter_app. f_equal. symmetry. by apply with_key_Permutation.
Qed.

(** Claim C5, as stated, fails: of two raw points of one new date the first
    in input order is kept, so reversing them changes what is stored. *)
Lemma two_points_of_one_date_depend_on_order :
  let R := [price_point 1700000000000 9.5; price_point 1700003600000 9.9] in
  let R' := [price_point 1700003600000 9.9; price_point 1700000000000 9.5] in
  R' ≡ₚ R /\
  fetch_and_save_data (scenario Missing R) = Written [price_point 1700000000 9.5] 1 /\
  fetch_and_save_data (scenario Missing R') = Written [price_point 1700003600 9.9] 1 /\
  fetch_and_save_data (scenario Missing R) <> fetch_and_save_data (scenario Missing R').
Proof.
  split; [apply Permutation_swap|].
  split; [vm_compute; reflexivity|]. split; [vm_compute; reflexivity|].
  vm_compute. discriminate.
Qed.

(** Claim C5, amended.  Let the raw points of [R] that fall on one UTC date
    which is neither today nor the date of a stored entry all convert to the
    same entry (in particular, let [R] hold at most one point per such
    date), and let [R'] be a permutation of [R].  Whenever the
    merge of [D] with [R] returns, so does the merge with [R']; both count
    the same number of new entries, both candidates sort to the same list,
    and the write step has the same outcome: the same dataset written, or
    none. *)
Theorem merge_is_order_insensitive
  (D R R' : list json) (today : string) (st : merge_state) :
  R ≡ₚ R' ->
  same_date_same_point D today R ->
  merge (JList D) R today = OK st ->
  exists st' items items',
    merge (JList D) R' today = OK st' /\
    new_entries_count st' = new_entries_count st /\
    existing_data st = JList items /\
    existing_data st' = JList items' /\
    items' ≡ₚ items /\
    Py.sort_by_timestamp items' = Py.sort_by_timestamp items /\
    commit (Z.of_nat (length D)) st' = commit (Z.of_nat (length D)) st.
Proof.
  intros Hp Hsame H.
  apply merge_appends in H as (ds & cs & Hds & Hcs & Hdata & Hn & Hnew & ->).
  destruct (mapM_Permutation convert _ _ Hp _ Hcs) as (cs' & Hcs' & Hpc).
  set (seen := list_to_set ds : gset string) in *.
  set (new := accepted today seen cs) in *.
  set (new' := accepted today seen cs').
  assert (Hpn : new ≡ₚ new').
  { apply accepted_Permutation_new; [exact Hpc|].
    intros c c' Hc Hc' Heq Htoday Hseen.
    destruct (mapM_OK_elem_r _ _ _ _ Hcs Hc) as (r & Hr & HrR).
    destruct (mapM_OK_elem_r _ _ _ _ Hcs Hc') as (r' & Hr' & Hr'R).
    assert (Hfresh : forall e, e ∈ D -> entry_date e <> OK c.1).
    { intros e He Hd. apply Hseen.
      destruct (mapM_OK_elem_l _ _ _ _ Hds He) as (d' & Hd' & Hin).
      rewrite Hd in Hd'. injection Hd' as <-. by apply elem_of_list_to_set. }
    pose proof (Hsame r r' c c' HrR Hr'R Hr Hr' Heq Htoday Hfresh).
    destruct c, c'; simpl in *; congruence. }
  assert (Hnew' : Forall (fun c => entry_date c.2 = OK c.1) new').
  { apply accepted_Forall. eapply mapM_convert_dates, Hcs'. }
  assert (HokD : Forall stored_point_ok D) by (eapply mapM_OK_stored, Hds).
  assert (Hok : Forall stored_point_ok (D ++ (snd <$> new)))
    by (apply Forall_app; split; [exact HokD|by apply new_points_stored]).
  assert (Hok' : Forall stored_point_ok (D ++ (snd <$> new')))
    by (apply Forall_app; split; [exact HokD|by apply new_points_stored]).
  assert (Hsort : Py.sort_by_timestamp (D ++ (snd <$> new'))
                  = Py.sort_by_timestamp (D ++ (snd <$> new))).
  { destruct (mapM_total Py.keyed D) as [kD HkD];
      [eapply Forall_impl; [exact HokD|apply stored_point_keyed]|].
    destruct (mapM_total Py.keyed (snd <$> new)) as [kN HkN];
      [eapply Forall_impl; [by apply new_points_stored|apply stored_point_keyed]|].
    apply (sort_insensitive D _ _ kD kN HkD HkN).
    - eapply keys_of_new_NoDup; [exact Hnew|apply accepted_NoDup|exact HkN].
    - by rewrite Hpn. }
  destruct (commit_after_merge D seen new Hok) as (sorted & Hs & Hc).
  destruct (commit_after_merge D seen new' Hok') as (sorted' & Hs' & Hc').
  exists (after_merge D seen 0 new'), (D ++ (snd <$> new)), (D ++ (snd <$> new')).
  split; [apply merge_OK; eauto|].
  split; [simpl; by rewrite Hpn|].
  split; [reflexivity|]. split; [reflexivity|].
  split; [by rewrite Hpn|]. split; [exact Hsort|].
  rewrite Hc, Hc'. rewrite Hsort, Hs in Hs'. injection Hs' as <-.
  pose proof (Permutation_length Hpn) as Hlen.
  destruct new, new'; simpl in Hlen; try discriminate; [reflexivity|].
  simpl. do 3 f_equal. lia.
Qed.

Lemma merge_is_order_insensitive_witness :
  let R := [price_point 1700000000000 9.5; price_point 1700003600000 9.9;
            price_point 1700086400000 9.7] in
  let R' := [price_point 1700003600000 9.9; price_point 1700000000000 9.5;
             price_point 1700086400000 9.7] in
  exists st, merge (JList []) R "2023-11-14" = OK st /\
  exists st' items items',
    merge (JList []) R' "2023-11-14" = OK st' /\
    new_entries_count st' = new_entries_count st /\
    existing_data st = JList items /\
    existing_data st' = JList items' /\
    items' ≡ₚ items /\
    Py.sort_by_timestamp items' = Py.sort_by_timestamp items /\
    commit (Z.of_nat (length (@nil json))) st'
    = commit (Z.of_nat (length (@nil json))) st.
Proof.
  intros R R'. eexists. split; [vm_compute; reflexivity|].
  apply (merge_is_order_insensitive [] R R' "2023-11-14").
  - apply Permutation_swap.
  - intros r1 r2 c1 c2 H1 H2 Hc1 Hc2 Heq Htoday _.
    repeat (apply elem_of_cons in H1 as [->|H1]); [..|inversion H1];
    (repeat (apply elem_of_cons in H2 as [->|H2]); [..|inversion H2]);
    vm_compute in Hc1, Hc2; injection Hc1 as <-; injection Hc2 as <-;
    simpl in *; congruence.
  - vm_compute. reflexivity.
Defined.

(** ** The merge returns on well-formed input *)

Lemma utc_date_in_range ts :
  in_range ts -> exists d, Calendar.utc_date ts = OK d.
Proof.
  unfold in_range, Calendar.utc_date. intros [Hlo Hhi].
  destruct (Z.ltb_spec ts Calendar.MIN_TS); [lia|].
  destruct (Z.ltb_spec Calendar.MAX_TS ts); [lia|]. simpl. eauto.
Qed.

Lemma index_0 {A} (x : A) (l : list A) : Py.index (x :: l) 0 = OK x.
Proof.
  unfold Py.index. cbn [length]. change (0 <? 0) with false. cbv iota.
  simpl orb. destruct (Z.leb_spec (Z.of_nat (S (length l))) 0); [lia|reflexivity].
Qed.

Lemma index_1 {A} (x y : A) (l : list A) : Py.index (x :: y :: l) 1 = OK y.
Proof.
  unfold Py.index. cbn [length]. change (1 <? 0) with false. cbv iota.
  simpl orb. destruct (Z.leb_spec (Z.of_nat (S (S (length l)))) 1); [lia|reflexivity].
Qed.

Lemma well_formed_stored_ok entry : well_formed_stored entry -> stored_point_ok entry.
Proof.
  intros (ts & rest & -> & Hr). destruct (utc_date_in_range ts Hr) as [d Hd].
  exists d. unfold entry_date, Py.getitem. rewrite index_0. exact Hd.
Qed.

Lemma well_formed_raw_ok entry : well_formed_raw entry -> raw_point_ok entry.
Proof.
  intros (ms & price & rest & -> & Hr).
  destruct (utc_date_in_range _ Hr) as [d Hd].
  exists (d, JList [JInt (ms / 1000); price]).
  unfold convert, Py.getitem. rewrite index_0, index_1. simpl.
  unfold Py.date_str. simpl. rewrite Hd. reflexivity.
Qed.

Lemma merge_returns D R today :
  Forall well_formed_stored D -> Forall well_formed_raw R ->
  exists st, merge (JList D) R today = OK st.
Proof.
  intros HD HR. apply merge_total.
  - eapply Forall_impl; [exact HD|apply well_formed_stored_ok].
  - eapply Forall_impl; [exact HR|apply well_formed_raw_ok].
Qed.

(** ** Datasets produced from the empty store *)

Lemma produced_one_per_date data : produced data -> one_per_date data.
Proof.
  induction 1 as [|D R today st data n _ IH Hmerge Hcommit].
  - exists []. split; [reflexivity|constructor].
  - destruct (merge_one_per_date _ _ _ _ Hmerge IH)
      as (new & sorted & _ & Hone & Hs & Hc).
    rewrite Hc in Hcommit. destruct new as [|e0 new]; [discriminate|].
    injection Hcommit as <- _.
    apply sort_Permutation in Hs. eapply one_per_date_Permutation; [|exact Hone].
    by symmetry.
Qed.

(** * Further properties of the code *)

(** ** The sort of line 127 *)

Lemma keys_keyed l ks :
  Py.keys l = OK ks -> Forall (fun kx => Py.keyed kx.2 = OK kx) ks.
Proof.
  intros H. apply mapM_OK_Forall2 in H.
  induction H as [|x kx l ks Hx _ IH]; constructor; [|exact IH].
  pose proof (keyed_OK _ _ Hx) as [_ Heq]. by rewrite Heq.
Qed.

Lemma keys_of_keyed (ks : list (Z * json)) :
  Forall (fun kx => Py.keyed kx.2 = OK kx) ks -> Py.keys (snd <$> ks) = OK ks.
Proof.
  unfold Py.keys. induction 1 as [|kx ks Hkx _ IH]; [reflexivity|].
  rewrite fmap_cons. cbn [mapM]. rewrite Hkx, IH. reflexivity.
Qed.

Lemma entries_with_key_keyed k (ks : list (Z * json)) :
  Forall (fun kx => Py.keyed kx.2 = OK kx) ks ->
  entries_with_key k (snd <$> ks) = snd <$> with_key k ks.
Proof.
  unfold entries_with_key, with_key.
  induction 1 as [|kx ks Hkx _ IH]; [reflexivity|].
  rewrite fmap_cons, !filter_cons, IH.
  apply keyed_OK in Hkx as [Hkey _]. rewrite Hkey.
  destruct (decide (OK kx.1 = OK k)) as [Heq|Hne], (decide (kx.1 = k)) as [Heq'|Hne'];
    try reflexivity; congruence.
Qed.

(** X1.  Whenever the sort returns, its result is a permutation of the
    input, in ascending order of the timestamps, and stable: the entries of
    any one timestamp come out in the order they went in. *)
Theorem sort_by_timestamp_sorts (l sorted : list json) :
  Py.sort_by_timestamp l = OK sorted ->
  sorted ≡ₚ l /\
  ascending sorted /\
  forall k, entries_with_key k sorted = entries_with_key k l.
Proof.
  intros H. pose proof (sort_Permutation _ _ H) as Hperm.
  unfold Py.sort_by_timestamp in H. apply bind_OK in H as (ks & Hks & H).
  injection H as <-.
  pose proof (keys_keyed _ _ Hks) as Hkeyed.
  assert (Hkeyed' : Forall (fun kx => Py.keyed kx.2 = OK kx) (Py.stable_sort ks))
    by (by rewrite stable_sort_Permutation).
  split; [exact Hperm|]. split.
  - exists (Py.stable_sort ks). split; [by apply keys_of_keyed|apply stable_sort_sorted].
  - intros k. rewrite (entries_with_key_keyed k _ Hkeyed'), stable_sort_with_key.
    rewrite <- (entries_with_key_keyed k _ Hkeyed). by rewrite (keys_snd l ks).
Qed.

Lemma sort_by_timestamp_sorts_witness :
  let l := [JList [JInt 5; JStr "a"]; JList [JInt 3]; JList [JInt 5; JStr "b"]] in
  let sorted := [JList [JInt 3]; JList [JInt 5; JStr "a"]; JList [JInt 5; JStr "b"]] in
  sorted ≡ₚ l /\
  ascending sorted /\
  forall k, entries_with_key k sorted = entries_with_key k l.
Proof.
  apply (sort_by_timestamp_sorts
           [JList [JInt 5; JStr "a"]; JList [JInt 3]; JList [JInt 5; JStr "b"]]).
  reflexivity.
Defined.

(** X2.  Whatever a run writes is in ascending order of the timestamps. *)
Theorem written_file_is_ascending (w : world) (data : list json) (n : Z) :
  fetch_and_save_data w = Written data n -> ascending data.
Proof.
  intros H. apply run_Written in H as (raw & today & st & Hmerge & Hcommit).
  apply merge_commit in Hmerge as (new & sorted & _ & _ & _ & Hs & Hc).
  rewrite Hc in Hcommit. destruct new as [|e0 new]; [discriminate|].
  injection Hcommit as <- _.
  unfold Py.sort_by_timestamp in Hs. apply bind_OK in Hs as (ks & Hks & Hs).
  injection Hs as <-.
  exists (Py.stable_sort ks). split; [|apply stable_sort_sorted].
  apply keys_of_keyed. rewrite stable_sort_Permutation. by apply keys_keyed in Hks.
Qed.

Lemma written_file_is_ascending_witness :
  ascending [price_point 1700000000 9.5; price_point 1700086400 9.7].
Proof.
  apply (written_file_is_ascending
           (scenario Missing
              [price_point 1700086400000 9.7; price_point 1700000000000 9.5])
           _ 2).
  vm_compute. reflexivity.
Defined.

(** ** The window the planner asks for (lines 59-65) *)

(** X3.  With a last timestamp, and unless the 365-day ceiling cuts the
    window, the window of [days_to_fetch] days that ends now begins more
    than one day and at most two days before the last stored timestamp: the
    two-day buffer always reaches behind the last entry.  The ceiling cuts
    the window exactly when the last timestamp is 363 days old or older. *)
Theorem fetch_window_reaches_last_entry (last_timestamp_sec now_us : Z) :
  0 < last_timestamp_sec ->
  let days := days_to_fetch last_timestamp_sec now_us in
  let last_us := last_timestamp_sec * MICROSECONDS_PER_SECOND in
  (days < 365 ->
   last_us - 2 * MICROSECONDS_PER_DAY <= now_us - days * MICROSECONDS_PER_DAY
   /\ now_us - days * MICROSECONDS_PER_DAY < last_us - MICROSECONDS_PER_DAY) /\
  (days = 365 <-> 363 * MICROSECONDS_PER_DAY <= now_us - last_us).
Proof.
  intros Hpos. cbv zeta.
  unfold days_to_fetch, timedelta_days, MICROSECONDS_PER_SECOND, MICROSECONDS_PER_DAY.
  destruct (Z.ltb_spec 0 last_timestamp_sec) as [_|]; [|lia].
  set (q := (now_us - last_timestamp_sec * 1000000) / 86400000000).
  assert (Hq : 86400000000 * q <= now_us - last_timestamp_sec * 1000000
               < 86400000000 * q + 86400000000).
  { unfold q.
    pose proof (Z.mul_div_le (now_us - last_timestamp_sec * 1000000) 86400000000).
    pose proof (Z.mul_succ_div_gt (now_us - last_timestamp_sec * 1000000) 86400000000).
    lia. }
  destruct (Z.ltb_spec 365 (q + 2)); repeat split; intros; lia.
Qed.

Lemma fetch_window_reaches_last_entry_witness :
  let days := days_to_fetch 1700000000 (1700259200 * MICROSECONDS_PER_SECOND) in
  let last_us := 1700000000 * MICROSECONDS_PER_SECOND in
  let now_us := 1700259200 * MICROSECONDS_PER_SECOND in
  (days < 365 ->
   last_us - 2 * MICROSECONDS_PER_DAY <= now_us - days * MICROSECONDS_PER_DAY
   /\ now_us - days * MICROSECONDS_PER_DAY < last_us - MICROSECONDS_PER_DAY) /\
  (days = 365 <-> 363 * MICROSECONDS_PER_DAY <= now_us - last_us).
Proof.
  apply (fetch_window_reaches_last_entry 1700000000
           (1700259200 * MICROSECONDS_PER_SECOND)).
  reflexivity.
Defined.

(** ** What the loader lets through (lines 29-51) *)

Lemma index_elem {A} (l : list A) (i : Z) (x : A) : Py.index l i = OK x -> x ∈ l.
Proof.
  unfold Py.index. destruct (_ || _); [discriminate|].
  destruct (l !! _) as [a|] eqn:E; [|discriminate].
  intros H. injection H as <-. eapply list_elem_of_lookup_2, E.
Qed.

Lemma index_raises {A} (l : list A) (i : Z) (e : exn) :
  Py.index l i = Raise e -> e = IndexError.
Proof.
  unfold Py.index. destruct (_ || _); [congruence|].
  destruct (l !! _); [discriminate|congruence].
Qed.

Lemma index_last {A} (l : list A) (x : A) : Py.index (l ++ [x]) (-1) = OK x.
Proof.
  unfold Py.index. rewrite length_app. cbn [length].
  change (-1 <? 0) with true. cbv iota.
  replace (-1 + Z.of_nat (length l + 1)) with (Z.of_nat (length l)) by lia.
  destruct (Z.ltb_spec (Z.of_nat (length l)) 0); [lia|].
  destruct (Z.leb_spec (Z.of_nat (length l + 1)) (Z.of_nat (length l))); [lia|].
  simpl orb. cbv iota. rewrite Nat2Z.id.
  rewrite lookup_app_r by lia. rewrite Nat.sub_diag. reflexivity.
Qed.

Lemma chars_elem (s : string) (x : json) :
  x ∈ Py.chars s -> exists c, x = JStr (String c EmptyString).
Proof.
  unfold Py.chars. intros H. apply list_elem_of_fmap in H as (c & -> & _). eauto.
Qed.

Lemma last_timestamp_not_list (v : json) :
  ~ is_list v -> exists e, last_timestamp v = Raise e /\ e <> FloatTimestamp.
Proof.
  intros Hnl. unfold last_timestamp.
  destruct v as [| | | |s|items|fields]; simpl;
    try (eexists; split; [reflexivity|discriminate]).
  - destruct (Py.index (Py.chars s) (-1)) as [x|e] eqn:E; simpl.
    + apply index_elem, chars_elem in E as [c ->]. simpl.
      eexists. split; [reflexivity|discriminate].
    + apply index_raises in E as ->. eexists. split; [reflexivity|discriminate].
  - destruct Hnl. eexists. reflexivity.
Qed.

(** X4.  A stored value that is truthy but not a list (a non-empty object
    or string, a non-zero number, [true]) cannot be indexed as a dataset:
    the loader gives up through its general handler, and the run ends with
    no fetch and no write. *)
Theorem wrong_container_aborts_run (w : world) (v : json) :
  price_data w = Parsed v ->
  Py.truthy v = true ->
  ~ is_list v ->
  load (price_data w) = LoadAbort IOFailure /\
  (has_credential w = true -> fetch_and_save_data w = LoaderAbort IOFailure) /\
  no_fetch (fetch_and_save_data w) = true /\
  no_write (fetch_and_save_data w) = true.
Proof.
  intros Hv Ht Hnl.
  destruct (last_timestamp_not_list v Hnl) as (e & He & Hne).
  assert (Hload : load (price_data w) = LoadAbort IOFailure).
  { rewrite Hv. simpl. rewrite Ht, He. by destruct e. }
  split; [exact Hload|].
  unfold fetch_and_save_data, has_credential. rewrite Hload.
  destruct (COINGECKO w) as [[|]|]; simpl; repeat split; auto; discriminate.
Qed.

Lemma wrong_container_aborts_run_witness :
  let w := scenario (Parsed (JDict [("prices", JList [])])) R_next_day in
  load (price_data w) = LoadAbort IOFailure /\
  (has_credential w = true -> fetch_and_save_data w = LoaderAbort IOFailure) /\
  no_fetch (fetch_and_save_data w) = true /\
  no_write (fetch_and_save_data w) = true.
Proof.
  apply (wrong_container_aborts_run
           (scenario (Parsed (JDict [("prices", JList [])])) R_next_day)
           (JDict [("prices", JList [])])).
  - reflexivity.
  - reflexivity.
  - intros [items H]. discriminate.
Defined.

Lemma load_list_last (D : list json) (e : json) :
  load (Parsed (JList (D ++ [e]))) =
  match (ts ← Py.getitem e 0; _ ← Py.date_str ts; Py.int_value ts) with
  | OK last => Loaded (JList (D ++ [e])) last
  | Raise FloatTimestamp => LoadOutsideModel
  | Raise _ => LoadAbort IOFailure
  end.
Proof.
  assert (Htruthy : Py.truthy (JList (D ++ [e])) = true).
  { simpl. rewrite length_app. simpl. by destruct (length D). }
  cbn [load]. rewrite Htruthy. unfold last_timestamp. cbn [Py.getitem].
  by rewrite index_last.
Qed.

(** X5.  Of a stored list the loader inspects the last entry only: if the
    date of the last entry can be computed, the list is loaded as it is,
    whatever comes before that entry, and the timestamp of the last entry
    becomes the last known timestamp. *)
Theorem loader_checks_last_entry_only (D : list json) (e : json) (d : string) (ts : Z) :
  entry_date e = OK d ->
  Py.sort_key e = OK ts ->
  load (Parsed (JList (D ++ [e]))) = Loaded (JList (D ++ [e])) ts.
Proof.
  intros Hd Hts. rewrite load_list_last.
  unfold entry_date in Hd. unfold Py.sort_key in Hts.
  destruct (Py.getitem e 0) as [t|]; [|discriminate]. simpl in *.
  rewrite Hd. simpl. by rewrite Hts.
Qed.

Lemma loader_checks_last_entry_only_witness :
  load (Parsed (JList ([JInt 5; JNull] ++ [price_point 1700000000 9.5])))
  = Loaded (JList ([JInt 5; JNull] ++ [price_point 1700000000 9.5])) 1700000000.
Proof.
  apply (loader_checks_last_entry_only [JInt 5; JNull]
           (price_point 1700000000 9.5) "2023-11-14" 1700000000);
    reflexivity.
Defined.

(** X6.  If computing the date of the last stored entry raises (the entry
    is not a list, is empty, or its first element is not a number or is out
    of the range of [datetime]), the loader gives up through its general
    handler and the run ends with no fetch and no write. *)
Theorem unusable_last_entry_aborts_run (w : world) (D : list json) (e : json) (x : exn) :
  price_data w = Parsed (JList (D ++ [e])) ->
  entry_date e = Raise x ->
  x <> FloatTimestamp ->
  load (price_data w) = LoadAbort IOFailure /\
  (has_credential w = true -> fetch_and_save_data w = LoaderAbort IOFailure) /\
  no_fetch (fetch_and_save_data w) = true /\
  no_write (fetch_and_save_data w) = true.
Proof.
  intros Hv Hx Hne.
  assert (Hload : load (price_data w) = LoadAbort IOFailure).
  { rewrite Hv, load_list_last. unfold entry_date in Hx.
    destruct (Py.getitem e 0) as [t|]; simpl in *.
    - rewrite Hx. simpl. by destruct x.
    - injection Hx as ->. by destruct x. }
  split; [exact Hload|].
  unfold fetch_and_save_data, has_credential. rewrite Hload.
  destruct (COINGECKO w) as [[|]|]; simpl; repeat split; auto; discriminate.
Qed.

Lemma unusable_last_entry_aborts_run_witness :
  let w := scenario (Parsed (JList ([price_point 1700000000 9.5] ++ [JInt 7])))
                    R_next_day in
  load (price_data w) = LoadAbort IOFailure /\
  (has_credential w = true -> fetch_and_save_data w = LoaderAbort IOFailure) /\
  no_fetch (fetch_and_save_data w) = true /\
  no_write (fetch_and_save_data w) = true.
Proof.
  apply (unusable_last_entry_aborts_run
           (scenario (Parsed (JList ([price_point 1700000000 9.5] ++ [JInt 7])))
                     R_next_day)
           [price_point 1700000000 9.5] (JInt 7) TypeError).
  - reflexivity.
  - reflexivity.
  - discriminate.
Defined.

(** ** What the merge loop appends (lines 98-117) *)

Lemma accepted_covers today cs c : forall seen,
  c ∈ cs -> c.1 <> today -> c.1 ∈ seen ∪ dates_in (accepted today seen cs).
Proof.
  induction cs as [|c0 rest IH]; intros seen Hin Htoday; [inversion Hin|].
  cbn [accepted].
  destruct (String.eqb c0.1 today) eqn:E0.
  - apply String.eqb_eq in E0.
    apply elem_of_cons in Hin as [->|Hin]; [contradiction|]. by apply IH.
  - destruct (decide (c0.1 ∈ seen)) as [Hseen|Hnew].
    + apply elem_of_cons in Hin as [->|Hin]; [set_solver|]. by apply IH.
    + rewrite dates_in_cons.
      apply elem_of_cons in Hin as [->|Hin]; [set_solver|].
      pose proof (IH ({[c0.1]} ∪ seen) Hin Htoday). set_solver.
Qed.

Lemma accepted_sublist today cs : forall seen, accepted today seen cs `sublist_of` cs.
Proof.
  induction cs as [|c rest IH]; intros seen; cbn [accepted]; [constructor|].
  destruct (String.eqb c.1 today); [by apply sublist_cons|].
  destruct (decide (c.1 ∈ seen)); [by apply sublist_cons|].
  by apply sublist_skip.
Qed.

Lemma sublist_snd (l k : list (string * json)) :
  l `sublist_of` k -> (snd <$> l) `sublist_of` (snd <$> k).
Proof. induction 1; simpl; by constructor. Qed.

Lemma accepted_all today cs : forall seen,
  NoDup (fst <$> cs) ->
  Forall (fun c => c.1 <> today /\ c.1 ∉ seen) cs ->
  accepted today seen cs = cs.
Proof.
  induction cs as [|c rest IH]; intros seen Hnd Hok; [reflexivity|].
  rewrite fmap_cons in Hnd. apply NoDup_cons in Hnd as [Hc Hnd].
  apply Forall_cons in Hok as [[Htoday Hseen] Hok].
  cbn [accepted]. apply String.eqb_neq in Htoday. rewrite Htoday.
  destruct (decide (c.1 ∈ seen)); [contradiction|].
  f_equal. apply IH; [exact Hnd|].
  rewrite Forall_forall in Hok. apply Forall_forall. intros c' Hc'.
  destruct (Hok c' Hc') as [Ht Hs]. split; [exact Ht|].
  intros Hin. apply elem_of_union in Hin as [Hin|Hin]; [|contradiction].
  apply elem_of_singleton in Hin. apply Hc. rewrite <- Hin.
  by apply list_elem_of_fmap_2.
Qed.

Lemma dated_in_merged D ds (new : list (string * json)) d :
  mapM entry_date D = OK ds ->
  Forall (fun c => entry_date c.2 = OK c.1) new ->
  d ∈ (list_to_set ds ∪ dates_in new : gset string) <->
  exists e, e ∈ D ++ (snd <$> new) /\ entry_date e = OK d.
Proof.
  intros Hds Hnew.
  pose proof (mapM_OK_app _ _ _ _ _ Hds (mapM_entry_date_new new Hnew)) as Hall.
  unfold dates_in. rewrite <- list_to_set_app_L, elem_of_list_to_set. split.
  - intros Hd. destruct (mapM_OK_elem_r _ _ _ _ Hall Hd) as (e & He & Hin). eauto.
  - intros (e & Hin & He).
    destruct (mapM_OK_elem_l _ _ _ _ Hall Hin) as (d' & Hd' & Hin').
    congruence.
Qed.

(** X7.  Nothing offered is lost: whenever the merge returns, every raw
    point whose date is not today has its date in the dataset afterwards,
    through a stored entry or an appended one. *)
Theorem every_offered_date_is_stored
  (D R : list json) (today : string) (st : merge_state) (r : json)
  (c : string * json) :
  merge (JList D) R today = OK st ->
  r ∈ R -> convert r = OK c -> c.1 <> today ->
  exists items e,
    existing_data st = JList items /\ e ∈ items /\ entry_date e = OK c.1.
Proof.
  intros H Hr Hc Htoday.
  apply merge_appends in H as (ds & cs & Hds & Hcs & Hdata & _ & Hnew & _).
  destruct (mapM_OK_elem_l _ _ _ _ Hcs Hr) as (c' & Hc' & Hin).
  rewrite Hc in Hc'. injection Hc' as <-.
  pose proof (accepted_covers today cs c (list_to_set ds) Hin Htoday) as Hcov.
  apply (dated_in_merged D ds _ _ Hds Hnew) in Hcov as (e & He & Hd).
  eauto.
Qed.

Lemma every_offered_date_is_stored_witness :
  exists st, merge (JList D_one) R_two_same_day "2027-01-15" = OK st /\
  exists items e,
    existing_data st = JList items /\ e ∈ items /\
    entry_date e = OK "2023-11-14".
Proof.
  eexists. split; [vm_compute; reflexivity|].
  apply (every_offered_date_is_stored D_one R_two_same_day "2027-01-15" _
           (price_point 1700003600000 9.9)
           ("2023-11-14", price_point 1700003600 9.9)).
  - vm_compute. reflexivity.
  - right. left.
  - vm_compute. reflexivity.
  - discriminate.
Defined.

(** X8.  The index stays in step with the data: whenever the merge returns,
    a date is in [existing_dates] exactly when some entry of the working
    dataset has that date. *)
Theorem index_matches_dataset
  (D R : list json) (today : string) (st : merge_state) :
  merge (JList D) R today = OK st ->
  exists items,
    existing_data st = JList items /\
    forall d, d ∈ existing_dates st <-> exists e, e ∈ items /\ entry_date e = OK d.
Proof.
  intros H.
  apply merge_appends in H as (ds & cs & Hds & Hcs & Hdata & _ & Hnew & ->).
  eexists. split; [reflexivity|].
  intros d. by apply dated_in_merged.
Qed.

Lemma index_matches_dataset_witness :
  exists st, merge (JList D_one) R_next_day "2027-01-15" = OK st /\
  exists items,
    existing_data st = JList items /\
    forall d, d ∈ existing_dates st <-> exists e, e ∈ items /\ entry_date e = OK d.
Proof.
  eexists. split; [vm_compute; reflexivity|].
  apply (index_matches_dataset D_one R_next_day "2027-01-15").
  vm_compute. reflexivity.
Defined.

(** X9.  The appended entries are conversions of raw points, in the order
    in which the raw points arrived. *)
Theorem appended_in_input_order
  (D R : list json) (today : string) (st : merge_state) :
  merge (JList D) R today = OK st ->
  exists new cs,
    mapM convert R = OK cs /\
    existing_data st = JList (D ++ new) /\
    new `sublist_of` (snd <$> cs).
Proof.
  intros H.
  apply merge_appends in H as (ds & cs & Hds & Hcs & Hdata & _ & _ & _).
  exists (snd <$> accepted today (list_to_set ds) cs), cs.
  repeat split; try assumption.
  apply sublist_snd, accepted_sublist.
Qed.

Lemma appended_in_input_order_witness :
  exists st, merge (JList D_one) R_next_day "2027-01-15" = OK st /\
  exists new cs,
    mapM convert R_next_day = OK cs /\
    existing_data st = JList (D_one ++ new) /\
    new `sublist_of` (snd <$> cs).
Proof.
  eexists. split; [vm_compute; reflexivity|].
  apply (appended_in_input_order D_one R_next_day "2027-01-15").
  vm_compute. reflexivity.
Defined.

(** X10.  Raw points of pairwise different dates, none of them today and
    none of them the date of a stored entry, are all appended, each as
    [[timestamp_ms // 1000, price]], in input order, and all are counted. *)
Theorem new_dates_are_all_appended
  (D R : list json) (today : string) (st : merge_state)
  (cs : list (string * json)) :
  merge (JList D) R today = OK st ->
  mapM convert R = OK cs ->
  NoDup (fst <$> cs) ->
  Forall (fun c => c.1 <> today) cs ->
  (forall c e, c ∈ cs -> e ∈ D -> entry_date e <> OK c.1) ->
  existing_data st = JList (D ++ (snd <$> cs)) /\
  new_entries_count st = Z.of_nat (length R).
Proof.
  intros H Hcs Hnd Htoday Hfresh.
  apply merge_appends in H as (ds & cs' & Hds & Hcs' & Hdata & Hn & _ & _).
  rewrite Hcs in Hcs'. injection Hcs' as <-.
  rewrite accepted_all in Hdata, Hn; try assumption.
  - split; [exact Hdata|]. by rewrite Hn, length_fmap, (mapM_OK_length _ _ _ Hcs).
  - rewrite Forall_forall in Htoday. apply Forall_forall. intros c Hc.
    split; [by apply Htoday|].
    intros Hin. apply elem_of_list_to_set in Hin.
    destruct (mapM_OK_elem_r _ _ _ _ Hds Hin) as (e & He & HeD).
    by apply (Hfresh c e).
  - rewrite Forall_forall in Htoday. apply Forall_forall. intros c Hc.
    split; [by apply Htoday|].
    intros Hin. apply elem_of_list_to_set in Hin.
    destruct (mapM_OK_elem_r _ _ _ _ Hds Hin) as (e & He & HeD).
    by apply (Hfresh c e).
Qed.

Lemma new_dates_are_all_appended_witness :
  let R := [price_point 1700086400000 9.7; price_point 1700172800000 9.8] in
  let cs := [("2023-11-15", price_point 1700086400 9.7);
             ("2023-11-16", price_point 1700172800 9.8)] in
  exists st, merge (JList D_one) R "2027-01-15" = OK st /\
  existing_data st = JList (D_one ++ (snd <$> cs)) /\
  new_entries_count st = Z.of_nat (length R).
Proof.
  intros R cs. eexists. split; [vm_compute; reflexivity|].
  apply (new_dates_are_all_appended D_one R "2027-01-15" _ cs).
  - vm_compute. reflexivity.
  - vm_compute. reflexivity.
  - apply NoDup_cons. split; [|apply NoDup_singleton].
    intros H. apply list_elem_of_singleton in H. discriminate.
  - repeat constructor; discriminate.
  - intros c e Hc He. apply list_elem_of_singleton in He as ->.
    apply elem_of_cons in Hc as [->|Hc];
      [|apply list_elem_of_singleton in Hc as ->]; vm_compute; discriminate.
Defined.

Lemma utc_date_day ts d :
  Calendar.utc_date ts = OK d -> d = date_of_day (ts / 86400).
Proof.
  unfold Calendar.utc_date, date_of_day.
  destruct (_ || _); [discriminate|]. intros H. by injection H.
Qed.

Lemma keys_of_new_dates (new : list (string * json)) (kN : list (Z * json)) :
  Forall (fun c => entry_date c.2 = OK c.1) new ->
  Py.keys (snd <$> new) = OK kN ->
  date_of_day <$> ((fun kx => kx.1 / 86400) <$> kN) = fst <$> new.
Proof.
  intros Hnew Hk. apply mapM_OK_Forall2 in Hk.
  revert kN Hk. induction Hnew as [|c new Hc _ IH]; intros kN Hk.
  - inversion Hk. reflexivity.
  - rewrite fmap_cons in Hk. inversion Hk as [|? kx ? kN' Hkx Hrest]; subst.
    rewrite !fmap_cons. f_equal; [|by apply IH].
    apply keyed_OK in Hkx as [Hkey _].
    apply entry_date_sort_key in Hc as (n & Hn & Hd).
    rewrite Hkey in Hn. injection Hn as <-. symmetry. by apply utc_date_day.
Qed.

(** X11.  At most one appended entry per UTC day: whenever the merge
    returns, the timestamps of the appended entries lie in pairwise
    different days, a day being 86400 seconds counted from the epoch. *)
Theorem appended_one_per_utc_day
  (D R : list json) (today : string) (st : merge_state) :
  merge (JList D) R today = OK st ->
  exists new ks,
    existing_data st = JList (D ++ new) /\
    Py.keys new = OK ks /\
    NoDup ((fun kx => kx.1 / 86400) <$> ks).
Proof.
  intros H.
  apply merge_appends in H as (ds & cs & Hds & Hcs & Hdata & _ & Hnew & _).
  set (new := accepted today (list_to_set ds) cs) in *.
  destruct (mapM_total Py.keyed (snd <$> new)) as [ks Hks].
  { eapply Forall_impl; [by apply new_points_stored|apply stored_point_keyed]. }
  exists (snd <$> new), ks. repeat split; try assumption.
  apply (NoDup_fmap_1 date_of_day).
  rewrite (keys_of_new_dates new ks Hnew Hks). apply accepted_NoDup.
Qed.

Lemma appended_one_per_utc_day_witness :
  exists st, merge (JList []) R_two_same_day "2027-01-15" = OK st /\
  exists new ks,
    existing_data st = JList ([] ++ new) /\
    Py.keys new = OK ks /\
    NoDup ((fun kx => kx.1 / 86400) <$> ks).
Proof.
  eexists. split; [vm_compute; reflexivity|].
  apply (appended_one_per_utc_day [] R_two_same_day "2027-01-15").
  vm_compute. reflexivity.
Defined.

(** ** A run as a whole *)

Lemma merge_and_save_merge w data initial_count fields raw today :
  Py.dict_get fields "prices" = JList raw ->
  Calendar.utc_date (clock_merge w / MICROSECONDS_PER_SECOND) = OK today ->
  merge_and_save w data initial_count (JDict fields)
  = (st ← merge data raw today; commit initial_count st).
Proof.
  intros Hraw Htoday. unfold merge_and_save, merge. cbn [Py.get_prices mbind result_bind].
  rewrite Hraw. destruct (existing_dates_of data); simpl; [|reflexivity].
  rewrite Htoday. reflexivity.
Qed.

Lemma run_Written_steps w data n :
  fetch_and_save_data w = Written data n ->
  has_credential w = true /\
  exists last fields raw today st,
    load (price_data w) = Loaded (JList (stored_entries (price_data w))) last /\
    api w (days_to_fetch last (clock_plan w)) = Body (JDict fields) /\
    Py.dict_get fields "prices" = JList raw /\
    Calendar.utc_date (clock_merge w / MICROSECONDS_PER_SECOND) = OK today /\
    merge (JList (stored_entries (price_data w))) raw today = OK st /\
    commit (Z.of_nat (length (stored_entries (price_data w)))) st
    = OK (Written data n).
Proof.
  unfold fetch_and_save_data, has_credential. intros H.
  destruct (COINGECKO w) as [[|a key]|]; try discriminate.
  split; [reflexivity|].
  destruct (load (price_data w)) as [v last| |] eqn:Hload; try discriminate.
  destruct (Py.len v) as [ic|] eqn:Hlen; [|discriminate].
  destruct (api w _) as [| | |body] eqn:Hapi; try discriminate.
  assert (Hms : merge_and_save w v ic body = OK (Written data n)).
  { destruct (merge_and_save w v ic body) as [o|[]]; simpl in H; congruence. }
  clear H. unfold merge_and_save in Hms.
  apply bind_OK in Hms as (prices & Hprices & Hms).
  destruct body as [| | | | | |fields]; try discriminate.
  injection Hprices as <-.
  destruct (Py.dict_get fields "prices") as [| | | | |raw|] eqn:Hraw;
    try discriminate.
  apply bind_OK in Hms as (dates & Hdates & Hms).
  apply bind_OK in Hms as (today & Htoday & Hms).
  apply bind_OK in Hms as (st & Hst & Hcommit).
  assert (Hmerge : merge v raw today = OK st)
    by (unfold merge; rewrite Hdates; exact Hst).
  destruct (is_list_dec v) as [[D ->]|Hnl].
  - pose proof (load_list _ _ _ Hload) as <-. injection Hlen as <-.
    exists last, fields, raw, today, st. repeat split; assumption.
  - apply merge_not_list in Hmerge; [|exact Hnl].
    unfold commit in Hcommit. rewrite Hmerge in Hcommit. discriminate.
Qed.

(** X12.  A run writes only after every step has succeeded: the credential
    is set; the stored value was loaded as a list; the API, asked for the
    planned number of days, answered with an object whose [prices] is a
    list; the date of every stored entry and the conversion of every raw
    entry raised nothing; and at least one entry was appended.  What is
    written is then the stored entries and the [n] appended ones. *)
Theorem run_writes_only_if (w : world) (data : list json) (n : Z) :
  fetch_and_save_data w = Written data n ->
  has_credential w = true /\
  exists last fields raw new,
    load (price_data w) = Loaded (JList (stored_entries (price_data w))) last /\
    api w (days_to_fetch last (clock_plan w)) = Body (JDict fields) /\
    Py.dict_get fields "prices" = JList raw /\
    Forall stored_point_ok (stored_entries (price_data w)) /\
    Forall raw_point_ok raw /\
    new <> [] /\
    n = Z.of_nat (length new) /\
    data ≡ₚ stored_entries (price_data w) ++ new.
Proof.
  intros H. apply run_Written_steps in H as (Hkey & last & fields & raw & today & st
    & Hload & Hapi & Hraw & _ & Hmerge & Hcommit).
  split; [exact Hkey|].
  pose proof (merge_commit _ _ _ _ Hmerge) as (new & sorted & _ & _ & _ & Hs & Hc).
  apply merge_OK in Hmerge as (ds & cs & Hds & Hcs & _).
  rewrite Hc in Hcommit. destruct new as [|e0 new]; [discriminate|].
  injection Hcommit as <- <-.
  exists last, fields, raw, (e0 :: new). repeat split; try assumption.
  - eapply mapM_OK_stored, Hds.
  - apply mapM_OK_Forall2 in Hcs. clear -Hcs.
    induction Hcs; constructor; [eexists; eassumption|assumption].
  - discriminate.
  - by apply sort_Permutation.
Qed.

Lemma run_writes_only_if_witness :
  let w := scenario (Parsed (JList D_one)) R_next_day in
  has_credential w = true /\
  exists last fields raw new,
    load (price_data w) = Loaded (JList (stored_entries (price_data w))) last /\
    api w (days_to_fetch last (clock_plan w)) = Body (JDict fields) /\
    Py.dict_get fields "prices" = JList raw /\
    Forall stored_point_ok (stored_entries (price_data w)) /\
    Forall raw_point_ok raw /\
    new <> [] /\
    1 = Z.of_nat (length new) /\
    [price_point 1700000000 9.5; price_point 1700086400 9.7]
    ≡ₚ stored_entries (price_data w) ++ new.
Proof.
  apply (run_writes_only_if (scenario (Parsed (JList D_one)) R_next_day)
           [price_point 1700000000 9.5; price_point 1700086400 9.7] 1).
  vm_compute. reflexivity.
Defined.

Lemma load_last_entry (D : list json) (e : json) (d : string) (ts : Z) :
  entry_date e = OK d ->
  Py.sort_key e = OK ts ->
  load (Parsed (JList (D ++ [e]))) = Loaded (JList (D ++ [e])) ts.
Proof.
  intros Hd Hts. rewrite load_list_last.
  unfold entry_date in Hd. unfold Py.sort_key in Hts.
  destruct (Py.getitem e 0) as [t|]; [|discriminate]. simpl in *.
  rewrite Hd. simpl. by rewrite Hts.
Qed.

Lemma merge_again D R today st items items' :
  merge (JList D) R today = OK st ->
  existing_data st = JList items ->
  items' ≡ₚ items ->
  merge (JList items') R today = OK (after_merge items' (existing_dates st) 0 []).
Proof.
  intros H Hitems Hperm.
  apply merge_appends in H as (ds & cs & Hds & Hcs & Hdata & _ & Hnew & ->).
  set (new := accepted today (list_to_set ds) cs) in *.
  cbn [existing_data after_merge] in Hitems. injection Hitems as <-.
  pose proof (mapM_OK_app _ _ _ _ _ Hds (mapM_entry_date_new new Hnew)) as Hall.
  destruct (mapM_Permutation entry_date _ _ (symmetry Hperm) _ Hall)
    as (ds' & Hds' & Hp).
  assert (Hset : (list_to_set ds' : gset string) = list_to_set ds ∪ dates_in new).
  { unfold dates_in. rewrite <- list_to_set_app_L. by rewrite Hp. }
  assert (Hagain : accepted today (list_to_set ds') cs = []).
  { apply (accepted_again today cs (list_to_set ds)); rewrite Hset; set_solver. }
  apply merge_OK. exists ds', cs. rewrite Hagain. repeat split; try assumption.
  unfold after_merge. cbn [existing_dates]. by rewrite Hset.
Qed.

(** X13.  What a run writes, the loader reads back: the written list is
    loaded as it is, and the last known timestamp it reports is the largest
    timestamp of the file. *)
Theorem written_file_loads (w : world) (data : list json) (n : Z) :
  fetch_and_save_data w = Written data n ->
  exists last ks,
    load (Parsed (JList data)) = Loaded (JList data) last /\
    Py.keys data = OK ks /\
    last ∈ fst <$> ks /\
    Forall (fun kx => kx.1 <= last) ks.
Proof.
  intros H. apply run_Written in H as (raw & today & st & Hmerge & Hcommit).
  apply merge_commit in Hmerge as (new & sorted & _ & _ & Hok & Hs & Hc).
  rewrite Hc in Hcommit. destruct new as [|e0 new]; [discriminate|].
  injection Hcommit as <- _.
  assert (Hok' : Forall stored_point_ok sorted)
    by (by rewrite (sort_Permutation _ _ Hs)).
  unfold Py.sort_by_timestamp in Hs. apply bind_OK in Hs as (ks0 & Hks0 & Hs).
  injection Hs as <-.
  pose proof (keys_keyed _ _ Hks0) as Hkeyed.
  rewrite <- stable_sort_Permutation in Hkeyed.
  pose proof (stable_sort_sorted ks0) as Hsorted.
  assert (Hne : Py.stable_sort ks0 <> []).
  { intros E. pose proof (stable_sort_Permutation ks0) as Hp. rewrite E in Hp.
    apply Permutation_nil_l in Hp. subst ks0.
    apply mapM_OK_length in Hks0. rewrite length_app in Hks0.
    simpl in Hks0. lia. }
  destruct (exists_last Hne) as (ks' & kl & Hsnoc).
  rewrite Hsnoc in *. clear Hsnoc Hne.
  rewrite fmap_app in *. cbn [fmap list_fmap] in *.
  apply Forall_app in Hok' as [_ Hlast]. rewrite Forall_singleton in Hlast.
  destruct Hlast as [d Hd].
  apply Forall_app in Hkeyed as [Hkeyed' Hkl]. rewrite Forall_singleton in Hkl.
  pose proof (keyed_OK _ _ Hkl) as [Hkey _].
  exists kl.1, (ks' ++ [kl]). split; [|split; [|split]].
  - by apply (load_last_entry _ _ d).
  - replace ((snd <$> ks') ++ [kl.2]) with (snd <$> (ks' ++ [kl]))
      by (by rewrite fmap_app).
    apply keys_of_keyed.
    apply Forall_app. split; [exact Hkeyed'|by apply Forall_singleton].
  - apply list_elem_of_fmap_2, elem_of_app. right. left.
  - apply StronglySorted_app in Hsorted as (Hle & _ & _).
    apply Forall_app. split.
    + apply Forall_forall. intros kx Hkx. apply (Hle kx kl Hkx). left.
    + apply Forall_singleton. lia.
Qed.

Lemma written_file_loads_witness :
  let data := [price_point 1700000000 9.5; price_point 1700086400 9.7] in
  exists last ks,
    load (Parsed (JList data)) = Loaded (JList data) last /\
    Py.keys data = OK ks /\
    last ∈ fst <$> ks /\
    Forall (fun kx => kx.1 <= last) ks.
Proof.
  apply (written_file_loads
           (scenario Missing
              [price_point 1700086400000 9.7; price_point 1700000000000 9.5])
           _ 2).
  vm_compute. reflexivity.
Defined.

Lemma accepted_none today cs seen :
  Forall (fun c => c.1 = today \/ c.1 ∈ seen) cs -> accepted today seen cs = [].
Proof.
  induction 1 as [|c cs Hc _ IH]; [reflexivity|]. cbn [accepted].
  destruct (String.eqb c.1 today) eqn:E; [exact IH|].
  apply String.eqb_neq in E.
  destruct (decide (c.1 ∈ seen)); [exact IH|]. by destruct Hc.
Qed.

Lemma merge_subset_again D R R' today st items items' :
  merge (JList D) R today = OK st ->
  existing_data st = JList items ->
  items' ≡ₚ items ->
  (forall r, r ∈ R' -> r ∈ R) ->
  exists st2,
    merge (JList items') R' today = OK st2 /\
    existing_data st2 = JList items' /\
    new_entries_count st2 = 0.
Proof.
  intros H Hitems Hperm Hsub.
  apply merge_appends in H as (ds & cs & Hds & Hcs & Hdata & _ & Hnew & _).
  set (new := accepted today (list_to_set ds) cs) in *.
  rewrite Hdata in Hitems. injection Hitems as <-.
  pose proof (mapM_OK_app _ _ _ _ _ Hds (mapM_entry_date_new new Hnew)) as Hall.
  destruct (mapM_Permutation entry_date _ _ (symmetry Hperm) _ Hall)
    as (ds' & Hds' & Hp).
  assert (Hset : (list_to_set ds' : gset string) = list_to_set ds ∪ dates_in new).
  { unfold dates_in. rewrite <- list_to_set_app_L. by rewrite Hp. }
  destruct (mapM_total convert R') as [cs' Hcs'].
  { apply Forall_forall. intros r Hr.
    destruct (mapM_OK_elem_l _ _ _ _ Hcs (Hsub r Hr)) as (c & Hc & _). eauto. }
  assert (Hnone : accepted today (list_to_set ds') cs' = []).
  { apply accepted_none, Forall_forall. intros c' Hc'.
    destruct (mapM_OK_elem_r _ _ _ _ Hcs' Hc') as (r & Hr & HrR').
    destruct (mapM_OK_elem_l _ _ _ _ Hcs (Hsub r HrR')) as (c & Hc & Hin).
    rewrite Hr in Hc. injection Hc as <-.
    destruct (decide (c'.1 = today)) as [|Hne]; [by left|right].
    rewrite Hset. by apply accepted_covers. }
  exists (after_merge items' (list_to_set ds') 0 []).
  split; [|split].
  - apply merge_OK. exists ds', cs'. by rewrite Hnone.
  - simpl. by rewrite app_nil_r.
  - reflexivity.
Qed.

Lemma fetched_raw_Some w raw :
  fetched_raw w = Some raw ->
  has_credential w = true /\
  exists v last initial_count fields,
    load (price_data w) = Loaded v last /\
    Py.len v = OK initial_count /\
    api w (days_to_fetch last (clock_plan w)) = Body (JDict fields) /\
    Py.dict_get fields "prices" = JList raw.
Proof.
  unfold fetched_raw. destruct (has_credential w); [|discriminate].
  destruct (load (price_data w)) as [v last| |]; try discriminate.
  destruct (Py.len v) as [ic|] eqn:Hlen; [|discriminate].
  destruct (api w _) as [| | |body] eqn:Hapi; try discriminate.
  destruct body as [| | | | | |fields]; try discriminate.
  destruct (Py.dict_get fields "prices") as [| | | | |raw0|] eqn:Hraw;
    try discriminate.
  intros H. injection H as <-. split; [reflexivity|].
  exists v, last, ic, fields. repeat split; assumption.
Qed.

(** X14.  A write is followed by a quiet run: let a run have written [data]
    after receiving the raw list [raw], and let the next run find that
    file, read the same UTC date from the clock and receive, for the days
    it asks for, a raw list [raw'] all of whose entries were in [raw] (the
    same answer, or the part of it that a shorter window holds).  Then the
    next run appends nothing and leaves the file alone. *)
Theorem next_run_is_up_to_date
  (w w' : world) (data : list json) (n : Z) (raw raw' : list json) :
  fetch_and_save_data w = Written data n ->
  price_data w' = Parsed (JList data) ->
  Calendar.utc_date (clock_merge w' / MICROSECONDS_PER_SECOND)
  = Calendar.utc_date (clock_merge w / MICROSECONDS_PER_SECOND) ->
  fetched_raw w = Some raw ->
  fetched_raw w' = Some raw' ->
  (forall r, r ∈ raw' -> r ∈ raw) ->
  fetch_and_save_data w' = UpToDate.
Proof.
  intros H Hfile Hclock Hraw Hraw' Hsub.
  pose proof (run_Written_steps _ _ _ H) as (Hkey & last & fields & raw0 & today & st
    & Hload & Hbody & Hprices & Htoday & Hmerge & Hcommit).
  assert (raw0 = raw) as ->.
  { unfold fetched_raw in Hraw. rewrite Hkey, Hload in Hraw. cbn [Py.len] in Hraw.
    rewrite Hbody, Hprices in Hraw. by injection Hraw. }
  pose proof (merge_commit _ _ _ _ Hmerge) as (new & sorted & Hdata & _ & Hok & Hs & Hc).
  rewrite Hc in Hcommit. destruct new as [|e0 new]; [discriminate|].
  injection Hcommit as <- _.
  pose proof (sort_Permutation _ _ Hs) as Hperm.
  destruct (merge_subset_again _ _ raw' _ _ _ _ Hmerge Hdata Hperm Hsub)
    as (st2 & Hmerge2 & Hdata2 & Hcount2).
  apply fetched_raw_Some in Hraw' as (Hkey' & v' & last' & ic' & fields' & Hload'
    & Hlen' & Hbody' & Hprices').
  assert (v' = JList sorted) as ->.
  { rewrite Hfile in Hload'. cbn [load] in Hload'. revert Hload'.
    destruct (Py.truthy (JList sorted)).
    - destruct (last_timestamp (JList sorted)) as [?|[]]; try discriminate;
        intros Hload'; by injection Hload' as <- _.
    - intros Hload'. by injection Hload' as <- _. }
  unfold fetch_and_save_data. unfold has_credential in Hkey'.
  destruct (COINGECKO w') as [[|a key]|]; try discriminate.
  rewrite Hload', Hlen', Hbody'.
  rewrite (merge_and_save_merge _ _ _ _ raw' today Hprices') by (by rewrite Hclock).
  rewrite Hmerge2. simpl. unfold commit. rewrite Hcount2. reflexivity.
Qed.

Lemma next_run_is_up_to_date_witness :
  fetch_and_save_data
    {| COINGECKO := Some "key";
       price_data := Parsed (JList [price_point 1700000000 9.5;
                                    price_point 1700086400 9.7]);
       clock_plan := 1700300000000000; clock_merge := 1700300000000000;
       api := windowed_api |}
  = UpToDate.
Proof.
  apply (next_run_is_up_to_date
           {| COINGECKO := Some "key"; price_data := Missing;
              clock_plan := 1700300000000000; clock_merge := 1700300000000000;
              api := windowed_api |}
           {| COINGECKO := Some "key";
              price_data := Parsed (JList [price_point 1700000000 9.5;
                                           price_point 1700086400 9.7]);
              clock_plan := 1700300000000000; clock_merge := 1700300000000000;
              api := windowed_api |}
           [price_point 1700000000 9.5; price_point 1700086400 9.7] 2
           [price_point 1700086400000 9.7; price_point 1700000000000 9.5]
           [price_point 1700086400000 9.7]).
  - vm_compute. reflexivity.
  - reflexivity.
  - reflexivity.
  - vm_compute. reflexivity.
  - vm_compute. reflexivity.
  - intros r Hr. apply list_elem_of_singleton in Hr as ->. left.
Defined.

(** The API is contacted only with a credential in hand and after the
    stored value has been loaded and measured: a run whose outcome lies
    behind the request had a credential, a successful load and a stored
    value that has a length. *)
Theorem fetch_only_after_load (w : world) :
  fetch_attempted (fetch_and_save_data w) = true ->
  has_credential w = true /\
  exists data last initial_count,
    load (price_data w) = Loaded data last /\
    Py.len data = OK initial_count.
Proof.
  unfold fetch_and_save_data, has_credential.
  destruct (COINGECKO w) as [[|a key]|]; try discriminate.
  destruct (load (price_data w)) as [data last| |]; try discriminate.
  destruct (Py.len data) as [ic|] eqn:Hlen; [|discriminate].
  intros _. split; [reflexivity|]. eauto.
Qed.

Lemma fetch_only_after_load_witness :
  let w := scenario (Parsed (JDict [])) R_next_day in
  has_credential w = true /\
  exists data last initial_count,
    load (price_data w) = Loaded data last /\
    Py.len data = OK initial_count.
Proof.
  apply (fetch_only_after_load (scenario (Parsed (JDict [])) R_next_day)).
  reflexivity.
Defined.

(** X15.  A dataset that is already in ascending order of its timestamps
    is left as it is by the sort. *)
Theorem sort_keeps_ascending_list (l : list json) :
  ascending l -> Py.sort_by_timestamp l = OK l.
Proof.
  intros (ks & Hks & Hsorted). unfold Py.sort_by_timestamp. rewrite Hks. simpl.
  rewrite (sorted_unique (Py.stable_sort ks) ks).
  - by rewrite (keys_snd l ks).
  - apply stable_sort_sorted.
  - exact Hsorted.
  - intros k. apply stable_sort_with_key.
Qed.

Lemma sort_keeps_ascending_list_witness :
  Py.sort_by_timestamp [price_point 1700000000 9.5; price_point 1700086400 9.7]
  = OK [price_point 1700000000 9.5; price_point 1700086400 9.7].
Proof.
  apply (sort_keeps_ascending_list
           [price_point 1700000000 9.5; price_point 1700086400 9.7]).
  exists [(1700000000, price_point 1700000000 9.5);
          (1700086400, price_point 1700086400 9.7)].
  split; [reflexivity|].
  repeat constructor. unfold key_le. simpl. lia.
Defined.

(** X16.  Two batches or one: merging [R1] and then merging [R2] into the
    result gives the dataset that merging [R1 ++ R2] in one go gives, and the
    two counters add up to the one counter. *)
Theorem merge_in_two_batches
  (D R1 R2 items1 : list json) (today : string) (st1 st2 : merge_state) :
  merge (JList D) R1 today = OK st1 ->
  existing_data st1 = JList items1 ->
  merge (JList items1) R2 today = OK st2 ->
  exists st,
    merge (JList D) (R1 ++ R2) today = OK st /\
    existing_data st = existing_data st2 /\
    existing_dates st = existing_dates st2 /\
    new_entries_count st = new_entries_count st1 + new_entries_count st2.
Proof.
  intros H1 Hitems H2.
  apply merge_appends in H1 as (ds & cs1 & Hds & Hcs1 & Hdata1 & Hn1 & Hnew1 & ->).
  set (seen := list_to_set ds : gset string) in *.
  set (new1 := accepted today seen cs1) in *.
  cbn [existing_data after_merge] in Hitems. injection Hitems as <-.
  pose proof (mapM_OK_app _ _ _ _ _ Hds (mapM_entry_date_new new1 Hnew1)) as Hall.
  apply merge_OK in H2 as (ds1 & cs2 & Hds1 & Hcs2 & ->).
  rewrite Hall in Hds1. injection Hds1 as <-.
  assert (Hset : (list_to_set (ds ++ (fst <$> new1)) : gset string)
                 = seen ∪ dates_in new1)
    by (unfold dates_in, seen; by rewrite list_to_set_app_L).
  rewrite Hset.
  exists (after_merge D seen 0 (accepted today seen (cs1 ++ cs2))).
  split; [apply merge_OK; exists ds, (cs1 ++ cs2);
          repeat split; [exact Hds|by apply mapM_OK_app]|].
  rewrite accepted_app. fold new1.
  set (new2 := accepted today (seen ∪ dates_in new1) cs2).
  unfold after_merge. cbn [existing_data existing_dates new_entries_count].
  repeat split.
  - by rewrite fmap_app, app_assoc.
  - unfold dates_in. rewrite fmap_app, list_to_set_app_L. set_solver.
  - rewrite length_app. lia.
Qed.

Lemma merge_in_two_batches_witness :
  exists st1 items1 st2,
    merge (JList D_one) R_same_day "2027-01-15" = OK st1 /\
    existing_data st1 = JList items1 /\
    merge (JList items1) R_next_day "2027-01-15" = OK st2 /\
  exists st,
    merge (JList D_one) (R_same_day ++ R_next_day) "2027-01-15" = OK st /\
    existing_data st = existing_data st2 /\
    existing_dates st = existing_dates st2 /\
    new_entries_count st = new_entries_count st1 + new_entries_count st2.
Proof.
  eexists. eexists. eexists.
  split; [vm_compute; reflexivity|]. split; [reflexivity|].
  split; [vm_compute; reflexivity|].
  eapply (merge_in_two_batches D_one R_same_day R_next_day _ "2027-01-15").
  - vm_compute. reflexivity.
  - reflexivity.
  - vm_compute. reflexivity.
Defined.

Lemma convert_parts r c :
  convert r = OK c ->
  exists ms_value ms price,
    Py.getitem r 0 = OK ms_value /\
    Py.int_value ms_value = OK ms /\
    Py.getitem r 1 = OK price /\
    c.2 = JList [JInt (ms / 1000); price] /\
    Calendar.utc_date (ms / 1000) = OK c.1.
Proof.
  unfold convert. intros H.
  apply bind_OK in H as (ms_value & Hms & H).
  apply bind_OK in H as (sec & Hsec & H).
  apply bind_OK in H as (price & Hprice & H).
  apply bind_OK in H as (d & Hd & H).
  injection H as <-.
  unfold Py.floordiv_1000 in Hsec. apply bind_OK in Hsec as (ms & Hint & Hsec).
  injection Hsec as <-.
  exists ms_value, ms, price. repeat split; assumption.
Qed.

(** X17.  Where appended entries come from: whenever the merge returns,
    every appended entry is [[ms // 1000, price]] for some raw entry whose
    first element is the integer [ms] and whose second element is
    [price]; the price is stored as received and anything after the second
    element of the raw entry is dropped. *)
Theorem appended_entries_come_from_raw
  (D R : list json) (today : string) (st : merge_state) :
  merge (JList D) R today = OK st ->
  exists new,
    existing_data st = JList (D ++ new) /\
    Forall (fun e => exists r ms_value ms price,
              r ∈ R /\
              Py.getitem r 0 = OK ms_value /\
              Py.int_value ms_value = OK ms /\
              Py.getitem r 1 = OK price /\
              e = JList [JInt (ms / 1000); price]) new.
Proof.
  intros H.
  apply merge_appends in H as (ds & cs & Hds & Hcs & Hdata & _ & _ & _).
  eexists. split; [exact Hdata|].
  apply Forall_fmap, Forall_forall. intros c Hc. simpl.
  apply accepted_elem in Hc as (Hc & _).
  destruct (mapM_OK_elem_r _ _ _ _ Hcs Hc) as (r & Hr & HrR).
  apply convert_parts in Hr as (ms_value & ms & price & H0 & Hint & H1 & Hshape & _).
  exists r, ms_value, ms, price. repeat split; assumption.
Qed.

Lemma appended_entries_come_from_raw_witness :
  exists st, merge (JList D_one) R_next_day "2027-01-15" = OK st /\
  exists new,
    existing_data st = JList (D_one ++ new) /\
    Forall (fun e => exists r ms_value ms price,
              r ∈ R_next_day /\
              Py.getitem r 0 = OK ms_value /\
              Py.int_value ms_value = OK ms /\
              Py.getitem r 1 = OK price /\
              e = JList [JInt (ms / 1000); price]) new.
Proof.
  eexists. split; [vm_compute; reflexivity|].
  apply (appended_entries_come_from_raw D_one R_next_day "2027-01-15").
  vm_compute. reflexivity.
Defined.

(** ** When a run reports that nothing is new (line 133) *)

Lemma merge_loop_not_list_skips today R : forall st st',
  ~ is_list (existing_data st) ->
  merge_loop today R st = OK st' ->
  Forall (fun r => exists c, convert r = OK c /\
                   (c.1 = today \/ c.1 ∈ existing_dates st)) R.
Proof.
  induction R as [|entry R IH]; intros st st' Hnl H; [constructor|].
  simpl in H. apply bind_OK in H as (st1 & H1 & H).
  pose proof (merge_entry_not_list _ _ _ _ Hnl H1) as ->.
  constructor; [|by apply (IH st st')].
  rewrite merge_entry_convert in H1. apply bind_OK in H1 as (c & Hc & H1).
  exists c. split; [exact Hc|].
  destruct (String.eqb c.1 today) eqn:E; [left; by apply String.eqb_eq|].
  destruct (decide (c.1 ∈ existing_dates st)); [by right|].
  apply bind_OK in H1 as (data & Hdata & _).
  destruct (existing_data st); try discriminate.
  destruct Hnl. eexists. reflexivity.
Qed.

Lemma loaded_not_list f v last initial_count :
  load f = Loaded v last -> Py.len v = OK initial_count -> ~ is_list v ->
  existing_dates_of v = OK ∅.
Proof.
  intros Hload Hlen Hnl.
  assert (Hfalsy : Py.truthy v = false).
  { destruct f as [| | | |v']; simpl in Hload; try discriminate.
    - injection Hload as <- _. destruct Hnl. eexists. reflexivity.
    - injection Hload as <- _. destruct Hnl. eexists. reflexivity.
    - destruct (Py.truthy v') eqn:Ht.
      + destruct (last_timestamp_not_list v') as (e & He & Hne).
        * destruct (last_timestamp v') as [?|[]]; try discriminate;
            injection Hload as <- _; exact Hnl.
        * rewrite He in Hload. destruct e; discriminate || contradiction.
      + by injection Hload as <- _. }
  destruct v as [| | | |s|items|fields]; try discriminate.
  - simpl in Hfalsy. apply negb_false_iff, String.eqb_eq in Hfalsy as ->.
    reflexivity.
  - destruct Hnl. eexists. reflexivity.
  - simpl in Hfalsy. destruct fields; [reflexivity|discriminate].
Qed.

Lemma run_UpToDate_steps w :
  fetch_and_save_data w = UpToDate ->
  exists v last initial_count fields raw today st,
    load (price_data w) = Loaded v last /\
    Py.len v = OK initial_count /\
    api w (days_to_fetch last (clock_plan w)) = Body (JDict fields) /\
    Py.dict_get fields "prices" = JList raw /\
    Calendar.utc_date (clock_merge w / MICROSECONDS_PER_SECOND) = OK today /\
    merge v raw today = OK st /\
    commit initial_count st = OK UpToDate.
Proof.
  unfold fetch_and_save_data. intros H.
  destruct (COINGECKO w) as [[|a key]|]; try discriminate.
  destruct (load (price_data w)) as [v last| |] eqn:Hload; try discriminate.
  destruct (Py.len v) as [ic|] eqn:Hlen; [|discriminate].
  destruct (api w _) as [| | |body] eqn:Hapi; try discriminate.
  assert (Hms : merge_and_save w v ic body = OK UpToDate).
  { destruct (merge_and_save w v ic body) as [o|[]]; simpl in H; congruence. }
  clear H. unfold merge_and_save in Hms.
  apply bind_OK in Hms as (prices & Hprices & Hms).
  destruct body as [| | | | | |fields]; try discriminate.
  injection Hprices as <-.
  destruct (Py.dict_get fields "prices") as [| | | | |raw|] eqn:Hraw;
    try discriminate.
  apply bind_OK in Hms as (dates & Hdates & Hms).
  apply bind_OK in Hms as (today & Htoday & Hms).
  apply bind_OK in Hms as (st & Hst & Hcommit).
  exists v, last, ic, fields, raw, today, st. repeat split; try assumption.
  unfold merge. rewrite Hdates. exact Hst.
Qed.

Lemma run_UpToDate_credential w :
  fetch_and_save_data w = UpToDate -> has_credential w = true.
Proof.
  unfold fetch_and_save_data, has_credential.
  by destruct (COINGECKO w) as [[|a key]|].
Qed.

(** X18.  The message that the file is up to date is a true one: when a run
    ends that way, it received a raw list from the API, every entry of that
    list converted, and each of them is dated today or has the date of an
    entry that is already stored. *)
Theorem up_to_date_means_nothing_new (w : world) :
  fetch_and_save_data w = UpToDate ->
  exists raw today,
    fetched_raw w = Some raw /\
    Calendar.utc_date (clock_merge w / MICROSECONDS_PER_SECOND) = OK today /\
    Forall (fun r => exists c,
              convert r = OK c /\
              (c.1 = today \/
               exists e, e ∈ stored_entries (price_data w) /\
                         entry_date e = OK c.1)) raw.
Proof.
  intros H. pose proof (run_UpToDate_credential _ H) as Hkey.
  apply run_UpToDate_steps in H as (v & last & ic & fields & raw & today
    & st & Hload & Hlen & Hapi & Hraw & Htoday & Hmerge & Hcommit).
  exists raw, today. split; [|split; [exact Htoday|]].
  { unfold fetched_raw. by rewrite Hkey, Hload, Hlen, Hapi, Hraw. }
  destruct (is_list_dec v) as [[D ->]|Hnl].
  - pose proof (load_list _ _ _ Hload) as <-. injection Hlen as <-.
    pose proof (merge_commit _ _ _ _ Hmerge) as (new & sorted & Hdata & _ & _ & _ & Hc).
    rewrite Hc in Hcommit. destruct new as [|e0 new]; [|discriminate].
    apply merge_appends in Hmerge as (ds & cs & Hds & Hcs & Hdata' & _ & _ & _).
    rewrite Hdata' in Hdata. injection Hdata as Hnil.
    apply app_inv_head in Hnil. apply fmap_nil_inv in Hnil.
    apply Forall_forall. intros r Hr.
    destruct (mapM_OK_elem_l _ _ _ _ Hcs Hr) as (c & Hc' & Hin).
    exists c. split; [exact Hc'|].
    destruct (decide (c.1 = today)) as [|Hne]; [by left|right].
    pose proof (accepted_covers today cs c (list_to_set ds) Hin Hne) as Hcov.
    rewrite Hnil in Hcov. unfold dates_in in Hcov. simpl in Hcov.
    assert (Hd : c.1 ∈ ds) by set_solver.
    destruct (mapM_OK_elem_r _ _ _ _ Hds Hd) as (e & He & HeD). eauto.
  - pose proof (loaded_not_list _ _ _ _ Hload Hlen Hnl) as Hdates.
    unfold merge in Hmerge. rewrite Hdates in Hmerge. simpl in Hmerge.
    apply merge_loop_not_list_skips in Hmerge; [|exact Hnl].
    eapply Forall_impl; [exact Hmerge|].
    intros r (c & Hc & [Ht|Hin]); exists c; split; auto. set_solver.
Qed.

Lemma up_to_date_means_nothing_new_witness :
  let w := scenario (Parsed (JList D_one))
             [price_point 1700000000000 9.9; price_point 1800000000000 9.7] in
  exists raw today,
    fetched_raw w = Some raw /\
    Calendar.utc_date (clock_merge w / MICROSECONDS_PER_SECOND) = OK today /\
    Forall (fun r => exists c,
              convert r = OK c /\
              (c.1 = today \/
               exists e, e ∈ stored_entries (price_data w) /\
                         entry_date e = OK c.1)) raw.
Proof.
  apply (up_to_date_means_nothing_new
           (scenario (Parsed (JList D_one))
              [price_point 1700000000000 9.9; price_point 1800000000000 9.7])).
  vm_compute. reflexivity.
Defined.

(** Content that [json.loads] accepts is never reported as corrupt,
    whatever its shape: line 46 is reached for invalid JSON only. *)
Lemma parsed_never_corrupt (v : json) : load (Parsed v) <> LoadAbort CorruptStore.
Proof.
  simpl. destruct (Py.truthy v); [|discriminate].
  destruct (last_timestamp v) as [?|[]]; discriminate.
Qed.
